(** * Sound anomaly detection: reconstruction error, threshold sweep, metrics

    A shallow embedding of the evaluation part of the notebook
    [2_custom_autoencoder.ipynb]: the reconstruction error of a signal, the
    train/test split clean-up, the threshold sweep over a pandas data frame and
    the confusion-matrix metrics.

    Numbers.  The notebook computes with IEEE doubles.  In the arrays, the
    frame and the metrics a finite value is an exact rational [Q] (every
    finite double is one), and the special values are kept: infinities and
    NaN, which numpy produces for the mean of an empty array, a division by
    zero or a cell never assigned; see [npfloat].  The rounding of sums and
    quotients is not modelled there.  The thresholds of the sweep are different:
    what [np.arange] returns depends on the rounding of every operation, and
    [Float64] computes them on binary64 numbers with the operations of the
    Standard Library's [SpecFloat]. *)

From Stdlib Require Import String List Bool Arith ZArith QArith Qround Lia Lqa
  Permutation SpecFloat.
Import ListNotations.

(** ** numpy scalars and arrays *)

Module NumPy.

(** A float is a finite value, a signed infinity or NaN.  Signed zeros are
    identified. *)
Inductive npfloat : Type :=
| Fin (q : Q)
| Inf (negative : bool)
| NaN.

Definition Qneg_bool (q : Q) : bool :=
  match q ?= 0 with Lt => true | _ => false end.

Definition Qzero_bool (q : Q) : bool :=
  match q ?= 0 with Eq => true | _ => false end.

Definition fadd (x y : npfloat) : npfloat :=
  match x, y with
  | NaN, _ | _, NaN => NaN
  | Fin a, Fin b => Fin (a + b)
  | Inf s, Fin _ | Fin _, Inf s => Inf s
  | Inf s, Inf t => if Bool.eqb s t then Inf s else NaN
  end.

Definition fmul (x y : npfloat) : npfloat :=
  match x, y with
  | NaN, _ | _, NaN => NaN
  | Fin a, Fin b => Fin (a * b)
  | Inf s, Fin b | Fin b, Inf s =>
      if Qzero_bool b then NaN else Inf (xorb s (Qneg_bool b))
  | Inf s, Inf t => Inf (xorb s t)
  end.

(** True division of numpy scalars: [0/0] is NaN and [x/0] is an infinity,
    with a RuntimeWarning and no exception. *)
Definition fdiv (x y : npfloat) : npfloat :=
  match x, y with
  | NaN, _ | _, NaN => NaN
  | Fin a, Fin b =>
      if Qzero_bool b
      then (if Qzero_bool a then NaN else Inf (Qneg_bool a))
      else Fin (a / b)
  | Fin _, Inf _ => Fin 0
  | Inf s, Fin b => Inf (xorb s (Qneg_bool b))
  | Inf _, Inf _ => NaN
  end.

Definition of_nat (n : nat) : npfloat := Fin (inject_Z (Z.of_nat n)).

Definition Qsum (l : list Q) : Q := fold_right Qplus 0 l.

Definition fsum (l : list npfloat) : npfloat := fold_right fadd (Fin 0) l.

(** What a numpy call gives back: a value, or the exception it raises. *)
Inductive exn : Type := ValueError.

Inductive result (A : Type) : Type :=
| Ok (a : A)
| Raise (e : exn).

Arguments Ok {A} a.
Arguments Raise {A} e.

(** A two-dimensional array: its shape and its rows. *)
Record ndarray : Type := mkarray {
  nrows : nat;
  ncols : nat;
  data : list (list Q)
}.

Definition shape (a : ndarray) : nat * nat := (nrows a, ncols a).

Definition get (a : ndarray) (i j : nat) : Q := nth j (nth i (data a) []) 0.

(** Broadcasting of one dimension: equal sizes, or one of them is 1. *)
Definition broadcast_dim (n m : nat) : option nat :=
  if n =? m then Some n
  else if n =? 1 then Some m
  else if m =? 1 then Some n
  else None.

(** Two sizes that do not broadcast: different, and neither is 1. *)
Definition incompatible (n m : nat) : Prop := n <> m /\ n <> 1%nat /\ m <> 1%nat.

(** The index read in a dimension of size [n]: a dimension of size 1 is
    repeated. *)
Definition bidx (n i : nat) : nat := if n =? 1 then 0%nat else i.

(** [a - b] *)
Definition np_subtract (a b : ndarray) : result ndarray :=
  match broadcast_dim (nrows a) (nrows b), broadcast_dim (ncols a) (ncols b) with
  | Some R, Some C =>
      Ok {| nrows := R; ncols := C;
            data := map (fun i =>
                      map (fun j =>
                        get a (bidx (nrows a) i) (bidx (ncols a) j)
                        - get b (bidx (nrows b) i) (bidx (ncols b) j))
                        (seq 0 C))
                      (seq 0 R) |}
  | _, _ => Raise ValueError
  end.

(** [np.square(a)] *)
Definition np_square (a : ndarray) : ndarray :=
  {| nrows := nrows a; ncols := ncols a;
     data := map (map (fun x => x * x)) (data a) |}.

(** [np.mean(a, axis=1)]: one mean per row. *)
Definition np_mean_axis1 (a : ndarray) : list npfloat :=
  map (fun r => fdiv (Fin (Qsum r)) (of_nat (ncols a))) (data a).

(** [np.mean(v)] of a one-dimensional array. *)
Definition np_mean (v : list npfloat) : npfloat :=
  fdiv (fsum v) (of_nat (length v)).

(** [np.arange(start, stop, step)] read in exact arithmetic:
    [ceil((stop - start)/step)] values [start + i*step], none when that
    number is not positive.  A zero step, which numpy refuses, is outside
    this reading.  What numpy computes on doubles is [Float64.np_arange_f64]. *)
Definition np_arange (start stop step : Q) : list Q :=
  map (fun i => start + inject_Z (Z.of_nat i) * step)
      (seq 0 (Z.to_nat (Qceiling ((stop - start) / step)))).

End NumPy.

Import NumPy.

(** ** Doubles, and [np.arange] as numpy computes it *)

Module Float64.

(** binary64: 53 bits of precision, exponents up to 1024.  The operations
    round to nearest, ties to even. *)
Definition prec : Z := 53.
Definition emax : Z := 1024.

Definition float64 : Type := spec_float.

Definition add64 : float64 -> float64 -> float64 := SFadd prec emax.
Definition sub64 : float64 -> float64 -> float64 := SFsub prec emax.
Definition mul64 : float64 -> float64 -> float64 := SFmul prec emax.
Definition div64 : float64 -> float64 -> float64 := SFdiv prec emax.

(** The double nearest to an integer, and the double a decimal literal
    [n/d] denotes (the correctly rounded quotient). *)
Definition f64_of_Z (z : Z) : float64 := binary_normalize prec emax z 0 false.

Definition is_zero (x : float64) : bool :=
  match x with S754_zero _ => true | _ => false end.

Definition signbit (x : float64) : bool :=
  match x with
  | S754_zero s | S754_infinity s | S754_finite s _ _ => s
  | S754_nan => false
  end.

(** [ceil] of a finite double, as an integer. *)
Definition ceil_Z (x : float64) : option Z :=
  match x with
  | S754_zero _ => Some 0%Z
  | S754_finite s m e =>
      let n := cond_Zopp s (Zpos m) in
      Some (if (0 <=? e)%Z then (n * 2 ^ e)%Z else (- ((- n) / 2 ^ (- e)))%Z)
  | S754_infinity _ | S754_nan => None
  end.

(** The value of a double in the numbers of the frame: exact. *)
Definition to_npfloat (x : float64) : npfloat :=
  match x with
  | S754_zero _ => Fin 0
  | S754_finite s m e =>
      let n := cond_Zopp s (Zpos m) in
      Fin (if (0 <=? e)%Z then inject_Z (n * 2 ^ e) else Qmake n (2 ^ Z.to_pos (- e)))
  | S754_infinity s => Inf s
  | S754_nan => NaN
  end.

(** What [np.arange] gives back: the array, or one of the exceptions of the
    length computation. *)
Inductive arange_result (A : Type) : Type :=
| AOk (a : A)
| ZeroDivisionError
| CannotComputeLength
| OverflowError.

Arguments AOk {A} a.
Arguments ZeroDivisionError {A}.
Arguments CannotComputeLength {A}.
Arguments OverflowError {A}.

Definition NPY_MAX_INTP : Z := 2 ^ 63 - 1.

(** The length: [ceil((stop - start) / step)] on Python floats.  The division
    raises on a zero step; a NaN quotient or a length outside the index type
    is refused (the length [2^63], whose conversion C leaves undefined, is
    taken as refused); a quotient that underflowed to zero still counts one
    value when positive; a negative length is an empty array. *)
Definition arange_length (start stop step : float64) : arange_result Z :=
  let next := sub64 stop start in
  if is_zero step then ZeroDivisionError
  else
    let value := div64 next step in
    match ceil_Z value with
    | None => match value with S754_nan => CannotComputeLength | _ => OverflowError end
    | Some c =>
        if ((c <? - NPY_MAX_INTP - 1) || (NPY_MAX_INTP <? c))%Z then OverflowError
        else if is_zero value && negb (is_zero next)
             then AOk (if signbit value then 0%Z else 1%Z)
             else AOk (Z.max 0 c)
    end.

(** The value at index [i]: [start], then [start + step], then
    [start + i*delta] with [delta = (start + step) - start], each operation
    rounded on its own (no fused multiply-add). *)
Definition arange_value (start step : float64) (i : nat) : float64 :=
  match i with
  | O => start
  | S O => add64 start step
  | _ => add64 start (mul64 (f64_of_Z (Z.of_nat i)) (sub64 (add64 start step) start))
  end.

(** [np.arange(start, stop, step)] on doubles.  Memory is not bounded here:
    numpy raises MemoryError for an array it cannot allocate. *)
Definition np_arange_f64 (start stop step : float64) : arange_result (list float64) :=
  match arange_length start stop step with
  | AOk len => AOk (map (arange_value start step) (seq 0 (Z.to_nat len)))
  | ZeroDivisionError => ZeroDivisionError
  | CannotComputeLength => CannotComputeLength
  | OverflowError => OverflowError
  end.

End Float64.


(** ** AnomalyScorer: the reconstruction error of one signal *)

Module AnomalyScorer.

(** [mse = np.mean(np.mean(np.square(eval_features - prediction), axis=1))] *)
Definition mse (eval_features prediction : ndarray) : result npfloat :=
  match np_subtract eval_features prediction with
  | Ok d => Ok (np_mean (np_mean_axis1 (np_square d)))
  | Raise e => Raise e
  end.

(** The score as the specification words it:
    mean over rows of the mean over columns of [(in - out)^2]. *)
Definition Qmean (l : list Q) : Q := Qsum l / inject_Z (Z.of_nat (length l)).

Definition mean_sq_diff_spec (features_in features_out : ndarray) : Q :=
  Qmean (map (fun i =>
           Qmean (map (fun j => (get features_in i j - get features_out i j) ^ 2)
                      (seq 0 (ncols features_in))))
         (seq 0 (nrows features_in))).

(** The value [mse] computes on two arrays of one shape with at least one
    row and one column. *)
Definition mse_value (a b : ndarray) : Q :=
  Qsum (map (fun i =>
          Qsum (map (fun j =>
                  (get a (bidx (nrows a) i) (bidx (ncols a) j)
                   - get b (bidx (nrows a) i) (bidx (ncols a) j))
                  * (get a (bidx (nrows a) i) (bidx (ncols a) j)
                     - get b (bidx (nrows a) i) (bidx (ncols a) j)))
                  (seq 0 (ncols a)))
          / inject_Z (Z.of_nat (ncols a)))
        (seq 0 (nrows a)))
  / inject_Z (Z.of_nat (nrows a)).

(** Arrays used as concrete inputs below. *)
Definition A22 : ndarray := mkarray 2 2 [[1; 2]; [3; 4]].
Definition B22 : ndarray := mkarray 2 2 [[1; 0]; [0; 4]].
Definition B12 : ndarray := mkarray 1 2 [[1; 0]].
Definition E02 : ndarray := mkarray 0 2 [].

End AnomalyScorer.

(** ** ThresholdEvaluator: the sweep over a data frame and the metrics *)

Module ThresholdEvaluator.

Import Float64.

(** The four error-type columns that [utils.generate_error_types] adds. *)
Record error_types : Type := mkET {
  TP : nat;
  TN : nat;
  FP : nat;
  FN : nat
}.

(** One row of the data frame [df].  [Prediction] is NaN until it is assigned;
    [Reconstruction Error] holds what the evaluation loop computed, NaN
    included; the error-type columns are absent until
    [utils.generate_error_types] has run. *)
Record Row : Type := mkRow {
  Signal : string;
  Ground_Truth : Q;
  Prediction : npfloat;
  Reconstruction_Error : npfloat;
  Error_Types : option error_types
}.

Definition DataFrame : Type := list Row.

(** [e > th] on finite values. *)
Definition Qgt_bool (e th : Q) : bool :=
  match e ?= th with Gt => true | _ => false end.

(** [x <= y] and [x > y] on floats: false as soon as one side is NaN. *)
Definition fle_bool (x y : npfloat) : bool :=
  match x, y with
  | NaN, _ | _, NaN => false
  | Fin a, Fin b => Qle_bool a b
  | Inf s, Fin _ => s
  | Fin _, Inf t => negb t
  | Inf s, Inf t => s || negb t
  end.

Definition fgt_bool (x y : npfloat) : bool :=
  match x, y with
  | NaN, _ | _, NaN => false
  | Fin a, Fin b => Qgt_bool a b
  | Inf s, Fin _ => negb s
  | Fin _, Inf t => t
  | Inf s, Inf t => negb s && t
  end.

Definition fle (x y : npfloat) : Prop := fle_bool x y = true.
Definition fgt (x y : npfloat) : Prop := fgt_bool x y = true.

(** [df.loc[mask, 'Prediction'] = v]: the rows selected by the mask are
    overwritten, the others keep their cell. *)
Definition loc_set_Prediction (mask : Row -> bool) (v : npfloat) (df : DataFrame)
  : DataFrame :=
  map (fun r =>
         if mask r
         then mkRow (Signal r) (Ground_Truth r) v (Reconstruction_Error r) (Error_Types r)
         else r) df.

(** The two assignments of the sweep body and of the evaluation cell:
    [df.loc[df['Reconstruction Error'] <= th, 'Prediction'] = 0.0] and
    [df.loc[df['Reconstruction Error'] > th, 'Prediction'] = 1.0]. *)
Definition assign_predictions (th : npfloat) (df : DataFrame) : DataFrame :=
  let df := loc_set_Prediction (fun r => fle_bool (Reconstruction_Error r) th) (Fin 0) df in
  loc_set_Prediction (fun r => fgt_bool (Reconstruction_Error r) th) (Fin 1) df.

(** The cell a row holds after the two assignments: 0.0, 1.0, or what it
    held before when neither mask selects the row. *)
Definition predicted (th : npfloat) (r : Row) : npfloat :=
  if fle_bool (Reconstruction_Error r) th then Fin 0
  else if fgt_bool (Reconstruction_Error r) th then Fin 1
  else Prediction r.

(** The effect of the two assignments on one row. *)
Definition assigned_row (th : npfloat) (r : Row) : Row :=
  mkRow (Signal r) (Ground_Truth r) (predicted th r)
        (Reconstruction_Error r) (Error_Types r).

Definition feq_bool (x : npfloat) (q : Q) : bool :=
  match x with Fin a => Qeq_bool a q | _ => false end.

Definition flag (b : bool) : nat := if b then 1%nat else 0%nat.

(** Modelled from the spec: [utils.generate_error_types] is not part of the
    notebook.  Following section 4.4, with label 1 = abnormal and prediction
    1 = abnormal: TP = (label=1, pred=1), TN = (label=0, pred=0),
    FP = (label=0 AND prediction=1), FN = (label=1 AND prediction=0).  The four
    columns are rewritten for every row from the [Ground Truth] and
    [Prediction] columns. *)
Definition row_error_types (l : Q) (p : npfloat) : error_types :=
  {| TP := flag (Qeq_bool l 1 && feq_bool p 1);
     TN := flag (Qeq_bool l 0 && feq_bool p 0);
     FP := flag (Qeq_bool l 0 && feq_bool p 1);
     FN := flag (Qeq_bool l 1 && feq_bool p 0) |}.

Definition generate_error_types (df : DataFrame) : DataFrame :=
  map (fun r =>
         mkRow (Signal r) (Ground_Truth r) (Prediction r) (Reconstruction_Error r)
           (Some (row_error_types (Ground_Truth r) (Prediction r)))) df.

(** [df[col].sum()] for an error-type column; the column is summed only after
    [generate_error_types] has filled it. *)
Definition col_sum (col : error_types -> nat) (df : DataFrame) : nat :=
  fold_right (fun r acc =>
                match Error_Types r with
                | Some e => (col e + acc)%nat
                | None => acc
                end) 0%nat df.

(** The state of the sweep loop: the frame and the lists [FN] and [FP]. *)
Record sweep_state : Type := mkState {
  st_df : DataFrame;
  st_FN : list nat;
  st_FP : list nat
}.

(** One iteration of [for th in thresholds: ...]. *)
Definition sweep_body (st : sweep_state) (th : npfloat) : sweep_state :=
  let df := assign_predictions th (st_df st) in
  let df := generate_error_types df in
  {| st_df := df;
     st_FN := st_FN st ++ [col_sum FN df];
     st_FP := st_FP st ++ [col_sum FP df] |}.

Definition sweep_loop (thresholds : list npfloat) (st : sweep_state) : sweep_state :=
  fold_left sweep_body thresholds st.

(** *** The sweep read in exact arithmetic *)

(** [thresholds = np.arange(threshold_min, threshold_max + threshold_step, threshold_step)] *)
Definition sweep_thresholds (threshold_min threshold_max threshold_step : Q) : list Q :=
  np_arange threshold_min (threshold_max + threshold_step) threshold_step.

(** The result of the sweep: the thresholds and the lists [FP] and [FN]
    handed to the plot, position by position. *)
Record ThresholdSweepResult : Type := mkSweep {
  sw_thresholds : list Q;
  sw_FP : list nat;
  sw_FN : list nat
}.

Definition sweep (df : DataFrame) (threshold_min threshold_max threshold_step : Q)
  : ThresholdSweepResult :=
  let thresholds := sweep_thresholds threshold_min threshold_max threshold_step in
  let st := sweep_loop (map Fin thresholds) {| st_df := df; st_FN := []; st_FP := [] |} in
  {| sw_thresholds := thresholds; sw_FP := st_FP st; sw_FN := st_FN st |}.

(** The sweep result as triples (threshold, FP, FN). *)
Definition sweep_triples (r : ThresholdSweepResult) : list (Q * nat * nat) :=
  combine (combine (sw_thresholds r) (sw_FP r)) (sw_FN r).

(** *** The sweep as the notebook runs it, on doubles *)

Record Float64SweepResult : Type := mkSweep64 {
  swf_thresholds : list float64;
  swf_FP : list nat;
  swf_FN : list nat
}.

(** [thresholds = np.arange(threshold_min, threshold_max + threshold_step,
    threshold_step)], then the loop; an exception of [np.arange] ends the
    cell before the loop. *)
Definition sweep_f64 (df : DataFrame) (threshold_min threshold_max threshold_step : float64)
  : arange_result Float64SweepResult :=
  match np_arange_f64 threshold_min (add64 threshold_max threshold_step) threshold_step with
  | AOk thresholds =>
      let st := sweep_loop (map to_npfloat thresholds)
                           {| st_df := df; st_FN := []; st_FP := [] |} in
      AOk {| swf_thresholds := thresholds; swf_FP := st_FP st; swf_FN := st_FN st |}
  | ZeroDivisionError => ZeroDivisionError
  | CannotComputeLength => CannotComputeLength
  | OverflowError => OverflowError
  end.


(** *** The evaluation cell *)

(** [astype(np.float32)] on the [Prediction] column: 0.0, 1.0 and NaN are
    kept as they are. *)
Definition astype_float32 (df : DataFrame) : DataFrame := df.

(** The confusion counts at a fixed threshold. *)
Record ConfusionOutcome : Type := mkCO {
  tp : nat;
  tn : nat;
  fn : nat;
  fp : nat
}.

(** The evaluation cell: predictions at [th], error types, the four sums. *)
Definition evaluate_at (df : DataFrame) (th : npfloat) : ConfusionOutcome :=
  let df := assign_predictions th df in
  let df := astype_float32 df in
  let df := generate_error_types df in
  {| tp := col_sum TP df;
     tn := col_sum TN df;
     fn := col_sum FN df;
     fp := col_sum FP df |}.

Record Metrics : Type := mkMetrics {
  precision : npfloat;
  recall : npfloat;
  accuracy : npfloat;
  f1_score : npfloat
}.

(** [precision = tp / (tp + fp)], [recall = tp / (tp + fn)],
    [accuracy = (tp + tn) / (tp + tn + fp + fn)],
    [f1_score = 2 * precision * recall / (precision + recall)],
    on numpy integers: true division, no test of the denominator. *)
Definition metrics (c : ConfusionOutcome) : Metrics :=
  let precision := fdiv (of_nat (tp c)) (of_nat (tp c + fp c)) in
  let recall := fdiv (of_nat (tp c)) (of_nat (tp c + fn c)) in
  let accuracy := fdiv (of_nat (tp c + tn c)) (of_nat (tp c + tn c + fp c + fn c)) in
  let f1_score := fdiv (fmul (fmul (Fin 2) precision) recall) (fadd precision recall) in
  {| precision := precision; recall := recall;
     accuracy := accuracy; f1_score := f1_score |}.

(** *** The counts in closed form *)

(** The number of rows with a given label and a given cell after the two
    assignments at [th]: a function of the frame as it is before them. *)
Definition count_rows (label pred : Q) (th : npfloat) (df : DataFrame) : nat :=
  List.length
    (filter (fun r => Qeq_bool (Ground_Truth r) label && feq_bool (predicted th r) pred)
            df).

Definition FP_at : npfloat -> DataFrame -> nat := count_rows 0 1.
Definition FN_at : npfloat -> DataFrame -> nat := count_rows 1 0.
Definition TP_at : npfloat -> DataFrame -> nat := count_rows 1 1.
Definition TN_at : npfloat -> DataFrame -> nat := count_rows 0 0.

(** The counts as pure functions of the (error, label) pairs and the
    threshold, in the words of the specification: the prediction is 0 if
    [error <= th], 1 if [error > th]; an error that compares neither way has
    no prediction. *)
Definition pairs (df : DataFrame) : list (npfloat * Q) :=
  map (fun r => (Reconstruction_Error r, Ground_Truth r)) df.

Definition prediction_spec (e th : npfloat) : npfloat :=
  if fle_bool e th then Fin 0 else if fgt_bool e th then Fin 1 else NaN.

Definition count_spec (label pred : Q) (th : npfloat) (ps : list (npfloat * Q)) : nat :=
  List.length
    (filter (fun p => Qeq_bool (snd p) label && feq_bool (prediction_spec (fst p) th) pred)
            ps).

Definition FP_spec : npfloat -> list (npfloat * Q) -> nat := count_spec 0 1.
Definition FN_spec : npfloat -> list (npfloat * Q) -> nat := count_spec 1 0.
Definition TP_spec : npfloat -> list (npfloat * Q) -> nat := count_spec 1 1.
Definition TN_spec : npfloat -> list (npfloat * Q) -> nat := count_spec 0 0.

(** A frame in which every row with a NaN error has a NaN prediction, as in
    a frame whose [Prediction] column was never assigned. *)
Definition nan_rows_unpredicted (df : DataFrame) : Prop :=
  Forall (fun r => Reconstruction_Error r = NaN -> Prediction r = NaN) df.

(** Frames used as concrete inputs below. *)
Definition frame5 : DataFrame :=
  [ mkRow "s1" 0 NaN (Fin 1) None; mkRow "s2" 0 NaN (Fin 2) None;
    mkRow "s3" 1 NaN (Fin 3) None; mkRow "s4" 1 NaN (Fin 4) None;
    mkRow "s5" 1 NaN (Fin 5) None ].

Definition frame2 : DataFrame :=
  [ mkRow "s1" 0 NaN (Fin 1) None; mkRow "s2" 0 NaN (Fin 9) None ].

(** A frame with the NaN error of a signal shorter than the window. *)
Definition frame_nan : DataFrame :=
  [ mkRow "s1" 0 NaN NaN None; mkRow "s2" 1 NaN (Fin 7) None ].

End ThresholdEvaluator.

(** ** DatasetBuilder: the split and its clean-up *)

Module DatasetBuilder.

(** The four parts the split cell leaves behind. *)
Record Split : Type := mkSplit {
  train_files : list string;
  test_files : list string;
  train_labels : list Q;
  test_labels : list Q
}.

Section Split.

(** [sklearn.model_selection.train_test_split] is an external library call:
    any function from the files and labels to the four parts. *)
Variable train_test_split :
  list string -> list Q -> list string * list string * list Q * list Q.

(** [f not in abnormal_files] *)
Definition not_in (f : string) (files : list string) : bool :=
  negb (existsb (String.eqb f) files).

(** The split cell: concatenate, split, keep only the normal training files,
    relabel them with zeros. *)
Definition build_split (normal_files abnormal_files : list string) : Split :=
  let X := normal_files ++ abnormal_files in
  let y := repeat 0 (List.length normal_files) ++ repeat 1 (List.length abnormal_files) in
  let '(train_files, test_files, train_labels, test_labels) := train_test_split X y in
  let train_files := filter (fun f => not_in f abnormal_files) train_files in
  let train_labels := repeat 0 (List.length train_files) in
  {| train_files := train_files; test_files := test_files;
     train_labels := train_labels; test_labels := test_labels |}.

End Split.

(** A split used as a concrete input below: the first file for testing, the
    others for training. *)
Definition split_head_for_test (X : list string) (y : list Q)
  : list string * list string * list Q * list Q :=
  (tl X, firstn 1 X, tl y, firstn 1 y).

End DatasetBuilder.

(** ** SpectrogramFeaturizer: sliding windows over the log-Mel spectrogram *)

Module SpectrogramFeaturizer.

(** An array whose rows agree with its shape. *)
Definition wf_ndarray (a : ndarray) : bool :=
  (List.length (data a) =? nrows a)%nat
  && forallb (fun r => (List.length r =? ncols a)%nat) (data a).

(** [a[:, j]] *)
Definition column (a : ndarray) (j : nat) : list Q :=
  map (fun r => nth j r 0) (data a).

Section Featurizer.

(** Steps 1 and 2 of section 4.1 (Mel power spectrogram, logarithmic scale)
    are the work of an audio library: a function from the signal and the
    parameters [n_mels], [n_fft], [hop_length] to the array [log_S]. *)
Variable Signal : Type.
Variable log_mel_spectrogram : Signal -> nat -> nat -> nat -> ndarray.

(** Modelled from the spec: [sound_tools.extract_signal_features] is not part
    of the notebook, which only calls it.  Steps 3 and 4 of section 4.1:
    [T_out = T - frames + 1]; no rows when [T_out < 1]; otherwise row [i] is
    the concatenation of the columns [log_S[:, i+f]] for [f] in
    [0..frames-1]. *)
Definition extract_signal_features (signal : Signal)
  (n_mels frames n_fft hop_length : nat) : ndarray :=
  let log_S := log_mel_spectrogram signal n_mels n_fft hop_length in
  let T := ncols log_S in
  let T_out := (Z.of_nat T - Z.of_nat frames + 1)%Z in
  if (T_out <? 1)%Z
  then {| nrows := 0; ncols := n_mels * frames; data := [] |}
  else {| nrows := Z.to_nat T_out; ncols := n_mels * frames;
          data := map (fun i => concat (map (fun f => column log_S (i + f)) (seq 0 frames)))
                      (seq 0 (Z.to_nat T_out)) |}.

End Featurizer.

Arguments extract_signal_features {Signal} log_mel_spectrogram signal
  n_mels frames n_fft hop_length.

(** The 2 x 4 spectrogram of section 8, with 1..8 for a..h. *)
Definition log_S_2x4 : ndarray := mkarray 2 4 [[1; 2; 3; 4]; [5; 6; 7; 8]].

Definition mel_2x4 (_ : unit) (_ _ _ : nat) : ndarray := log_S_2x4.

End SpectrogramFeaturizer.

(** ** The rest of the notebook: parameters, evaluation loop, plots, end of
    the evaluation cell *)

Module Config.

(** The feature engineering parameters. *)
Definition n_mels : nat := 64.
Definition frames : nat := 5.
Definition n_fft : nat := 1024.
Definition hop_length : nat := 512.

(** The threshold range, the histogram bin width and the threshold of the
    evaluation cell. *)
Definition threshold_min : Q := 5.
Definition threshold_max : Q := 10.
Definition threshold_step : Q := 1 # 2.
Definition bin_width : Q := 1 # 4.
Definition th : Q := 6275 # 1000.

End Config.


Module NumPyEq.

(** Equality of floats up to the representation of the rational. *)
Definition npfloat_eq (x y : npfloat) : Prop :=
  match x, y with
  | Fin a, Fin b => a == b
  | Inf s, Inf t => s = t
  | NaN, NaN => True
  | _, _ => False
  end.

Definition result_eq (x y : result npfloat) : Prop :=
  match x, y with
  | Ok a, Ok b => npfloat_eq a b
  | Raise e, Raise e' => e = e'
  | _, _ => False
  end.

(** The squared difference [mse] reads at position [(i, j)] of the broadcast
    shape. *)
Definition sq_diff (a b : ndarray) (i j : nat) : Q :=
  (get a (bidx (nrows a) i) (bidx (ncols a) j)
   - get b (bidx (nrows b) i) (bidx (ncols b) j))
  * (get a (bidx (nrows a) i) (bidx (ncols a) j)
     - get b (bidx (nrows b) i) (bidx (ncols b) j)).

(** Mean over [R] rows of the mean over [C] columns of [sq_diff]. *)
Definition broadcast_value (a b : ndarray) (R C : nat) : Q :=
  Qsum (map (fun i =>
          Qsum (map (fun j => sq_diff a b i j) (seq 0 C))
          / inject_Z (Z.of_nat C))
        (seq 0 R))
  / inject_Z (Z.of_nat R).

End NumPyEq.

Module EvaluationLoop.

(** How the loop ended: it ran through, or an exception left it. *)
Inductive outcome : Type :=
| Completed
| Raised (e : exn).

Section Loop.

(** The audio library and the endpoint are outside the notebook:
    [sound_tools.load_sound_file] gives the samples and the sample rate,
    [sound_tools.extract_signal_features] the features, and
    [tf_predictor.predict(...)['predictions']] the reconstruction. *)
Variable Signal : Type.
Variable load_sound_file : string -> Signal * nat.
Variable extract_signal_features : Signal -> nat -> nat -> nat -> nat -> nat -> ndarray.
Variable predict : ndarray -> ndarray.

Definition eval_features_of (eval_filename : string) : ndarray :=
  let '(signal, sr) := load_sound_file eval_filename in
  extract_signal_features signal sr
    Config.n_mels Config.frames Config.n_fft Config.hop_length.

(** The shape of the reconstruction of a file cannot be broadcast against
    the shape of its features. *)
Definition bad_shape (eval_filename : string) : Prop :=
  let eval_features := eval_features_of eval_filename in
  incompatible (nrows eval_features) (nrows (predict eval_features))
  \/ incompatible (ncols eval_features) (ncols (predict eval_features)).

(** The body of [for index, eval_filename in enumerate(test_files)]: the
    list [reconstruction_errors] after the iteration, and whether the
    subtraction raised.  The list is a variable of the notebook: an exception
    leaves in it what was appended before. *)
Definition loop_body (reconstruction_errors : list npfloat) (eval_filename : string)
  : list npfloat * outcome :=
  let eval_features := eval_features_of eval_filename in
  let prediction := predict eval_features in
  match AnomalyScorer.mse eval_features prediction with
  | Ok mse => (reconstruction_errors ++ [mse], Completed)
  | Raise e => (reconstruction_errors, Raised e)
  end.

Fixpoint evaluation_loop (test_files : list string) (reconstruction_errors : list npfloat)
  : list npfloat * outcome :=
  match test_files with
  | [] => (reconstruction_errors, Completed)
  | eval_filename :: rest =>
      match loop_body reconstruction_errors eval_filename with
      | (reconstruction_errors, Completed) => evaluation_loop rest reconstruction_errors
      | (reconstruction_errors, Raised e) => (reconstruction_errors, Raised e)
      end
  end.

(** [reconstruction_errors = []] and the loop. *)
Definition reconstruction_errors_of (test_files : list string) : list npfloat * outcome :=
  evaluation_loop test_files [].

End Loop.

Arguments eval_features_of {Signal} load_sound_file extract_signal_features eval_filename.
Arguments bad_shape {Signal} load_sound_file extract_signal_features predict
  eval_filename.
Arguments loop_body {Signal} load_sound_file extract_signal_features predict
  reconstruction_errors eval_filename.
Arguments evaluation_loop {Signal} load_sound_file extract_signal_features predict
  test_files reconstruction_errors.
Arguments reconstruction_errors_of {Signal} load_sound_file extract_signal_features
  predict test_files.

(** Inputs used below: a loader, features that are the 2x2 array [A22] for
    every file but "bad.wav", whose features are 2x3, and an endpoint that
    always answers with the 2x2 array [B22]. *)
Definition load_name (eval_filename : string) : string * nat := (eval_filename, 4000%nat).
Definition features_by_name (signal : string) (_ _ _ _ _ : nat) : ndarray :=
  if String.eqb signal "bad.wav" then mkarray 2 3 [[0; 0; 0]; [0; 0; 0]]
  else AnomalyScorer.A22.
Definition predict_B22 (_ : ndarray) : ndarray := AnomalyScorer.B22.

End EvaluationLoop.

Module Plots.

(** [data = np.column_stack((range(len(reconstruction_errors)), reconstruction_errors))]:
    one row (index, error) per error. *)
Definition column_stack_index (reconstruction_errors : list Q) : list (Q * Q) :=
  combine (map (fun i => inject_Z (Z.of_nat i))
               (seq 0 (List.length reconstruction_errors)))
          reconstruction_errors.

(** Indexing rows with a boolean array: the rows whose mask is true, or an
    IndexError when the mask has another length than the array. *)
Inductive selection (A : Type) : Type :=
| Selected (a : A)
| IndexError.

Arguments Selected {A} a.
Arguments IndexError {A}.

Definition mask_rows {A : Type} (mask : list bool) (rows : list A) : selection (list A) :=
  if (List.length mask =? List.length rows)%nat
  then Selected (map snd (filter fst (combine mask rows)))
  else IndexError.

(** The scatter data of the threshold plot. *)
Record Scatter : Type := mkScatter {
  normal_x : list Q;
  normal_y : list Q;
  abnormal_x : list Q;
  abnormal_y : list Q;
  x : list Q
}.

(** [normal_x, normal_y = data[y_true==0][:,0], data[y_true==0][:,1]], the
    same with [y_true==1], and [x = np.concatenate((normal_x, abnormal_x))]. *)
Definition scatter_data (y_true reconstruction_errors : list Q) : selection Scatter :=
  let data := column_stack_index reconstruction_errors in
  match mask_rows (map (fun l => Qeq_bool l 0) y_true) data with
  | IndexError => IndexError
  | Selected normal =>
      match mask_rows (map (fun l => Qeq_bool l 1) y_true) data with
      | IndexError => IndexError
      | Selected abnormal =>
          Selected {| normal_x := map fst normal; normal_y := map snd normal;
                      abnormal_x := map fst abnormal; abnormal_y := map snd abnormal;
                      x := map fst normal ++ map fst abnormal |}
      end
  end.

End Plots.

Module EvaluationCell.

Import ThresholdEvaluator.

Definition fsub (x y : npfloat) : npfloat :=
  match x, y with
  | NaN, _ | _, NaN => NaN
  | Fin a, Fin b => Fin (a - b)
  | Fin _, Inf s => Inf (negb s)
  | Inf s, Fin _ => Inf s
  | Inf s, Inf t => if Bool.eqb s t then NaN else Inf s
  end.

(** [df['Ground Truth'] = 1 - df['Ground Truth']] *)
Definition flip_Ground_Truth (df : DataFrame) : DataFrame :=
  map (fun r => mkRow (Signal r) (1 - Ground_Truth r) (Prediction r)
                      (Reconstruction_Error r) (Error_Types r)) df.

(** [df['Prediction'] = 1 - df['Prediction']] *)
Definition flip_Prediction (df : DataFrame) : DataFrame :=
  map (fun r => mkRow (Signal r) (Ground_Truth r) (fsub (Fin 1) (Prediction r))
                      (Reconstruction_Error r) (Error_Types r)) df.

(** The whole evaluation cell: the counts, and the frame it leaves behind,
    which the next cell writes with [to_csv]. *)
Definition evaluation_cell (df : DataFrame) (th : npfloat)
  : ConfusionOutcome * DataFrame :=
  let df := assign_predictions th df in
  let df := astype_float32 df in
  let df := generate_error_types df in
  let c := {| tp := col_sum TP df; tn := col_sum TN df;
              fn := col_sum FN df; fp := col_sum FP df |} in
  let df := flip_Ground_Truth df in
  let df := flip_Prediction df in
  (c, df).

(** A metric is NaN or a number between 0 and 1, never an infinity. *)
Definition unit_or_nan (m : npfloat) : Prop :=
  match m with
  | Fin q => 0 <= q /\ q <= 1
  | NaN => True
  | Inf _ => False
  end.

(** The counts with the roles of the classes exchanged. *)
Definition swap_classes (c : ConfusionOutcome) : ConfusionOutcome :=
  {| tp := fp c; tn := fn c; fn := tn c; fp := tp c |}.

End EvaluationCell.

(** * Properties *)

(** ** Arithmetic of the numpy model *)

Module NumPyFacts.

Lemma Qzero_bool_true (q : Q) : q == 0 -> Qzero_bool q = true.
Proof.
  intros H. unfold Qzero_bool. apply Qeq_alt in H. now rewrite H.
Qed.

Lemma Qzero_bool_false (q : Q) : ~ q == 0 -> Qzero_bool q = false.
Proof.
  intros H. unfold Qzero_bool.
  destruct (q ?= 0) eqn:E; try reflexivity.
  exfalso. apply H. now apply Qeq_alt.
Qed.

Lemma inject_nat_pos (n : nat) : (0 < n)%nat -> 0 < inject_Z (Z.of_nat n).
Proof.
  intros H. change 0 with (inject_Z 0). rewrite <- Zlt_Qlt. lia.
Qed.

Lemma inject_nat_nonneg (n : nat) : 0 <= inject_Z (Z.of_nat n).
Proof.
  change 0 with (inject_Z 0). rewrite <- Zle_Qle. lia.
Qed.

Lemma fdiv_nat_pos (q : Q) (n : nat) :
  (0 < n)%nat -> fdiv (Fin q) (of_nat n) = Fin (q / inject_Z (Z.of_nat n)).
Proof.
  intros H. unfold of_nat, fdiv. rewrite Qzero_bool_false; [reflexivity|].
  pose proof (inject_nat_pos n H) as P. intros E. rewrite E in P.
  exact (Qlt_irrefl 0 P).
Qed.

Lemma fdiv_zero_zero : fdiv (of_nat 0) (of_nat 0) = NaN.
Proof. reflexivity. Qed.

Lemma fsum_Fin (l : list Q) : fsum (map Fin l) = Fin (Qsum l).
Proof.
  induction l as [|x l IH]; [reflexivity|].
  change (fsum (map Fin (x :: l))) with (fadd (Fin x) (fsum (map Fin l))).
  now rewrite IH.
Qed.

Lemma Qsum_map_ext {A : Type} (f g : A -> Q) (l : list A) :
  (forall x, In x l -> f x == g x) -> Qsum (map f l) == Qsum (map g l).
Proof.
  induction l as [|x l IH]; intros H; [reflexivity|].
  change (f x + Qsum (map f l) == g x + Qsum (map g l)).
  rewrite (H x (or_introl eq_refl)), IH; [reflexivity|].
  intros y Hy. apply H. now right.
Qed.

Lemma Qsum_map_nonneg {A : Type} (f : A -> Q) (l : list A) :
  (forall x, In x l -> 0 <= f x) -> 0 <= Qsum (map f l).
Proof.
  induction l as [|x l IH]; intros H; [apply Qle_refl|].
  change (0 <= f x + Qsum (map f l)).
  assert (0 <= f x) by (apply H; now left).
  assert (0 <= Qsum (map f l)) by (apply IH; intros y Hy; apply H; now right).
  lra.
Qed.

Lemma Qdiv_nat_nonneg (q : Q) (n : nat) :
  0 <= q -> 0 <= q / inject_Z (Z.of_nat n).
Proof.
  intros H. unfold Qdiv. apply Qmult_le_0_compat; [exact H|].
  apply Qinv_le_0_compat, inject_nat_nonneg.
Qed.

Lemma broadcast_dim_same (n : nat) : broadcast_dim n n = Some n.
Proof. unfold broadcast_dim. now rewrite Nat.eqb_refl. Qed.

Lemma broadcast_dim_None (n m : nat) :
  broadcast_dim n m = None <-> incompatible n m.
Proof.
  unfold broadcast_dim, incompatible.
  destruct (Nat.eqb_spec n m), (Nat.eqb_spec n 1), (Nat.eqb_spec m 1);
    split; intros H; try discriminate; try reflexivity; lia.
Qed.

Lemma bidx_in_range (n i : nat) : (i < n)%nat -> bidx n i = i.
Proof.
  unfold bidx. destruct (Nat.eqb_spec n 1); [lia | reflexivity].
Qed.

Lemma np_subtract_same_shape (a b : ndarray) :
  shape a = shape b ->
  np_subtract a b =
  Ok {| nrows := nrows a; ncols := ncols a;
        data := map (fun i =>
                  map (fun j =>
                    get a (bidx (nrows a) i) (bidx (ncols a) j)
                    - get b (bidx (nrows a) i) (bidx (ncols a) j))
                    (seq 0 (ncols a)))
                  (seq 0 (nrows a)) |}.
Proof.
  unfold shape. intros H. injection H as Hr Hc.
  unfold np_subtract. rewrite <- Hr, <- Hc, !broadcast_dim_same. reflexivity.
Qed.

End NumPyFacts.

Import NumPyFacts.

(** ** The reconstruction error *)

Module AnomalyScorerFacts.

Import AnomalyScorer.

Lemma Qmean_map_seq (f : nat -> Q) (n : nat) :
  Qmean (map f (seq 0 n)) = Qsum (map f (seq 0 n)) / inject_Z (Z.of_nat n).
Proof. unfold Qmean. now rewrite length_map, length_seq. Qed.

Lemma mse_same_shape_value (a b : ndarray) :
  shape a = shape b -> (0 < nrows a)%nat -> (0 < ncols a)%nat ->
  mse a b = Ok (Fin (mse_value a b)).
Proof.
  intros Hs Hr Hc. unfold mse. rewrite (np_subtract_same_shape _ _ Hs).
  unfold np_mean, np_mean_axis1, np_square; simpl.
  rewrite !map_map.
  rewrite (map_ext _
    (fun i => Fin (Qsum (map (fun j =>
                  (get a (bidx (nrows a) i) (bidx (ncols a) j)
                   - get b (bidx (nrows a) i) (bidx (ncols a) j))
                  * (get a (bidx (nrows a) i) (bidx (ncols a) j)
                     - get b (bidx (nrows a) i) (bidx (ncols a) j)))
                  (seq 0 (ncols a)))
          / inject_Z (Z.of_nat (ncols a))))).
  2:{ intros i. rewrite map_map. now apply fdiv_nat_pos. }
  rewrite <- (map_map _ Fin), fsum_Fin, !length_map, length_seq.
  now rewrite fdiv_nat_pos.
Qed.

Lemma mse_value_spec (a b : ndarray) :
  mse_value a b == mean_sq_diff_spec a b.
Proof.
  unfold mse_value, mean_sq_diff_spec. rewrite Qmean_map_seq.
  apply Qmult_comp; [|reflexivity].
  apply Qsum_map_ext. intros i Hi. apply in_seq in Hi.
  rewrite Qmean_map_seq. apply Qmult_comp; [|reflexivity].
  apply Qsum_map_ext. intros j Hj. apply in_seq in Hj.
  rewrite !bidx_in_range by lia. simpl. ring.
Qed.

Lemma mse_value_nonneg (a b : ndarray) : 0 <= mse_value a b.
Proof.
  unfold mse_value.
  apply Qdiv_nat_nonneg, Qsum_map_nonneg. intros i _.
  apply Qdiv_nat_nonneg, Qsum_map_nonneg. intros j _.
  match goal with |- 0 <= ?d * ?d => generalize d end.
  intros d. nra.
Qed.

(** C1, amended.  For two feature matrices of one shape with at least one row
    and one column, the reconstruction error is one finite scalar: the mean
    over rows of the mean over columns of the squared difference, and it is
    not negative. *)
Theorem mse_is_mean_of_row_means (features_in features_out : ndarray) :
  shape features_in = shape features_out ->
  (0 < nrows features_in)%nat ->
  (0 < ncols features_in)%nat ->
  exists s : Q,
    mse features_in features_out = Ok (Fin s)
    /\ s == mean_sq_diff_spec features_in features_out
    /\ 0 <= s.
Proof.
  intros Hs Hr Hc. exists (mse_value features_in features_out).
  split; [now apply mse_same_shape_value|].
  split; [apply mse_value_spec | apply mse_value_nonneg].
Qed.

Lemma mse_is_mean_of_row_means_witness :
  exists s : Q, mse A22 B22 = Ok (Fin s) /\ s == mean_sq_diff_spec A22 B22 /\ 0 <= s.
Proof.
  apply (mse_is_mean_of_row_means A22 B22); [reflexivity | simpl; lia | simpl; lia].
Defined.

(** C1 as stated fails on a matrix without rows (the features of a signal
    shorter than the window): the two shapes agree and the result is NaN, not
    a non-negative number. *)
Lemma mse_zero_rows_is_nan :
  shape E02 = shape E02
  /\ mse E02 E02 = Ok NaN
  /\ ~ (exists s : Q, mse E02 E02 = Ok (Fin s) /\ 0 <= s).
Proof.
  split; [reflexivity|]. split; [reflexivity|].
  intros [s [H _]]. discriminate H.
Qed.

(** More generally, two matrices of one shape without rows score NaN. *)
Lemma mse_no_rows (a b : ndarray) :
  shape a = shape b -> nrows a = 0%nat -> mse a b = Ok NaN.
Proof.
  intros Hs H0. unfold mse. rewrite (np_subtract_same_shape _ _ Hs), H0.
  reflexivity.
Qed.

(** A perfect reconstruction has error zero. *)
Lemma mse_self_zero (a : ndarray) :
  (0 < nrows a)%nat -> (0 < ncols a)%nat ->
  exists s : Q, mse a a = Ok (Fin s) /\ s == 0.
Proof.
  intros Hr Hc. exists (mse_value a a).
  split; [now apply mse_same_shape_value|].
  unfold mse_value.
  assert (Z : forall (f : nat -> Q) l, (forall x, f x == 0) -> Qsum (map f l) == 0).
  { intros f l Hf. induction l as [|x l IH]; [reflexivity|].
    change (f x + Qsum (map f l) == 0). rewrite Hf, IH. reflexivity. }
  rewrite Z; [reflexivity|]. intros i.
  rewrite Z; [reflexivity|]. intros j. ring.
Qed.

(** C5, amended.  [mse] raises exactly when the two shapes do not broadcast:
    in some dimension the sizes differ and neither is 1.  In every other case,
    equal shapes or not, it returns a value. *)
Theorem mse_raises_iff_not_broadcastable (features_in features_out : ndarray) :
  (mse features_in features_out = Raise ValueError
   <-> incompatible (nrows features_in) (nrows features_out)
       \/ incompatible (ncols features_in) (ncols features_out))
  /\ ((exists x, mse features_in features_out = Ok x)
      <-> ~ (incompatible (nrows features_in) (nrows features_out)
             \/ incompatible (ncols features_in) (ncols features_out))).
Proof.
  unfold mse, np_subtract.
  destruct (broadcast_dim (nrows features_in) (nrows features_out)) as [R|] eqn:ER;
  destruct (broadcast_dim (ncols features_in) (ncols features_out)) as [C|] eqn:EC.
  - assert (NR : ~ incompatible (nrows features_in) (nrows features_out))
      by (rewrite <- broadcast_dim_None, ER; discriminate).
    assert (NC : ~ incompatible (ncols features_in) (ncols features_out))
      by (rewrite <- broadcast_dim_None, EC; discriminate).
    split; split; intros H; try discriminate; try tauto.
    eexists; reflexivity.
  - apply broadcast_dim_None in EC.
    split; split; intros H; try tauto.
    destruct H as [x H]; discriminate.
  - apply broadcast_dim_None in ER.
    split; split; intros H; try tauto.
    destruct H as [x H]; discriminate.
  - apply broadcast_dim_None in ER.
    split; split; intros H; try tauto.
    destruct H as [x H]; discriminate.
Qed.

(** C5 as stated fails: a 2x2 matrix against a 1x2 matrix differ in shape,
    nothing is raised, the single row is repeated and a number comes out. *)
Lemma mse_broadcasts_one_row :
  shape A22 <> shape B12 /\ mse A22 B12 = Ok (Fin (48 # 8)).
Proof.
  split; [discriminate | reflexivity].
Qed.

End AnomalyScorerFacts.


(** ** The threshold sweep and the confusion counts *)

Module ThresholdEvaluatorFacts.

Import Float64 ThresholdEvaluator.

Lemma Qgt_bool_iff (e th : Q) : Qgt_bool e th = true <-> th < e.
Proof.
  unfold Qgt_bool. rewrite (Qgt_alt e th).
  destruct (e ?= th); split; intros H; try reflexivity; discriminate.
Qed.

(** On finite values the two masks are complementary. *)
Lemma Qgt_bool_negb_le (e th : Q) : Qgt_bool e th = negb (Qle_bool e th).
Proof.
  destruct (Qle_bool e th) eqn:L; simpl.
  - apply Qle_bool_iff in L.
    destruct (Qgt_bool e th) eqn:G; [|reflexivity].
    apply Qgt_bool_iff in G. exfalso. exact (Qlt_not_le _ _ G L).
  - apply Qgt_bool_iff. apply Qnot_le_lt. intros H.
    apply Qle_bool_iff in H. congruence.
Qed.

(** Away from NaN each row is selected by exactly one mask; on NaN by
    none. *)
Lemma fgt_bool_negb_fle (x y : npfloat) :
  x <> NaN -> y <> NaN -> fgt_bool x y = negb (fle_bool x y).
Proof.
  intros Hx Hy. destruct x as [a|s|], y as [b|t|]; try congruence; cbn.
  - apply Qgt_bool_negb_le.
  - now destruct t.
  - reflexivity.
  - now destruct s, t.
Qed.

Lemma fle_fgt_exclusive (x y : npfloat) :
  fle_bool x y = true -> fgt_bool x y = false.
Proof.
  destruct x as [a|s|], y as [b|t|]; cbn; try discriminate.
  - intros H. now rewrite Qgt_bool_negb_le, H.
  - now destruct t.
  - intros ->. reflexivity.
  - now destruct s, t.
Qed.

Lemma fle_bool_nan_l (y : npfloat) : fle_bool NaN y = false.
Proof. reflexivity. Qed.

Lemma fgt_bool_nan_l (y : npfloat) : fgt_bool NaN y = false.
Proof. reflexivity. Qed.

Lemma fle_bool_nan_r (x : npfloat) : fle_bool x NaN = false.
Proof. now destruct x. Qed.

Lemma fgt_bool_nan_r (x : npfloat) : fgt_bool x NaN = false.
Proof. now destruct x. Qed.

Lemma fle_Fin (a b : Q) : fle (Fin a) (Fin b) <-> a <= b.
Proof. unfold fle; cbn. apply Qle_bool_iff. Qed.

Lemma fgt_Fin (a b : Q) : fgt (Fin a) (Fin b) <-> b < a.
Proof. unfold fgt; cbn. apply Qgt_bool_iff. Qed.

Lemma predicted_not_nan (th : npfloat) (r : Row) :
  Reconstruction_Error r <> NaN -> th <> NaN ->
  predicted th r
  = if fle_bool (Reconstruction_Error r) th then Fin 0 else Fin 1.
Proof.
  intros He Ht. unfold predicted. rewrite (fgt_bool_negb_fle _ _ He Ht).
  now destruct (fle_bool (Reconstruction_Error r) th).
Qed.

Lemma predicted_nan_error (th : npfloat) (r : Row) :
  Reconstruction_Error r = NaN -> predicted th r = Prediction r.
Proof. intros E. unfold predicted. now rewrite E. Qed.

Lemma predicted_nan_threshold (r : Row) : predicted NaN r = Prediction r.
Proof.
  unfold predicted. now rewrite fle_bool_nan_r, fgt_bool_nan_r.
Qed.

Lemma assign_predictions_rows (th : npfloat) (df : DataFrame) :
  assign_predictions th df = map (assigned_row th) df.
Proof.
  unfold assign_predictions, loc_set_Prediction. rewrite map_map.
  apply map_ext. intros r. unfold assigned_row, predicted.
  destruct (fle_bool (Reconstruction_Error r) th) eqn:L;
    cbn [Reconstruction_Error Signal Ground_Truth Error_Types].
  - now rewrite (fle_fgt_exclusive _ _ L).
  - destruct (fgt_bool (Reconstruction_Error r) th); [reflexivity|].
    now destruct r.
Qed.

Lemma length_filter_flags {A : Type} (f : A -> bool) (l : list A) :
  List.length (filter f l) = fold_right (fun x acc => (flag (f x) + acc)%nat) 0%nat l.
Proof.
  induction l as [|x l IH]; [reflexivity|].
  simpl. destruct (f x); simpl; now rewrite IH.
Qed.

Lemma col_sum_generated (col : error_types -> nat) (df : DataFrame) :
  col_sum col (generate_error_types df)
  = fold_right (fun r acc =>
      (col (row_error_types (Ground_Truth r) (Prediction r)) + acc)%nat) 0%nat df.
Proof.
  induction df as [|r df IH]; [reflexivity|].
  simpl. now rewrite IH.
Qed.

(** The count a column holds after the two assignments and the error types,
    in terms of the frame before them. *)
Lemma counts_after_assignment (th : npfloat) (df : DataFrame) :
  let df' := generate_error_types (assign_predictions th df) in
  col_sum TP df' = TP_at th df
  /\ col_sum TN df' = TN_at th df
  /\ col_sum FP df' = FP_at th df
  /\ col_sum FN df' = FN_at th df.
Proof.
  cbv zeta. rewrite !col_sum_generated, assign_predictions_rows.
  unfold TP_at, TN_at, FP_at, FN_at, count_rows.
  rewrite !length_filter_flags.
  induction df as [|r df [I1 [I2 [I3 I4]]]]; [repeat split|].
  cbn [map fold_right]. rewrite I1, I2, I3, I4.
  cbn [assigned_row Ground_Truth Prediction row_error_types TP TN FP FN].
  repeat split.
Qed.

Lemma evaluate_at_counts (df : DataFrame) (th : npfloat) :
  evaluate_at df th
  = {| tp := TP_at th df; tn := TN_at th df;
       fn := FN_at th df; fp := FP_at th df |}.
Proof.
  unfold evaluate_at, astype_float32.
  destruct (counts_after_assignment th df) as [H1 [H2 [H3 H4]]].
  now rewrite H1, H2, H3, H4.
Qed.

(** With the NaN-error rows unpredicted, the counts are those of the
    specification on the (error, label) pairs. *)
Lemma predicted_is_spec (th : Q) (r : Row) :
  (Reconstruction_Error r = NaN -> Prediction r = NaN) ->
  predicted (Fin th) r = prediction_spec (Reconstruction_Error r) (Fin th).
Proof.
  intros H. unfold predicted, prediction_spec.
  destruct (Reconstruction_Error r) as [a|s|] eqn:E; cbn.
  - rewrite Qgt_bool_negb_le. now destruct (Qle_bool a th).
  - now destruct s.
  - now apply H.
Qed.

(** C2.  After the two assignments at threshold [th], whatever the frame
    held before, a row whose error is at most [th] is predicted 0 (normal) and
    a row whose error exceeds [th] is predicted 1 (abnormal); an error equal to
    the threshold is predicted normal.  The other columns are untouched.  A
    row whose error compares neither way (a NaN error, or a NaN threshold)
    keeps its cell. *)
Theorem prediction_rule (th : npfloat) (df : DataFrame) :
  Forall2 (fun r r' =>
             Signal r' = Signal r
             /\ Ground_Truth r' = Ground_Truth r
             /\ Reconstruction_Error r' = Reconstruction_Error r
             /\ (fle (Reconstruction_Error r) th -> Prediction r' = Fin 0)
             /\ (fgt (Reconstruction_Error r) th -> Prediction r' = Fin 1)
             /\ (forall e t : Q,
                   Reconstruction_Error r = Fin e -> th = Fin t ->
                   (e <= t -> Prediction r' = Fin 0)
                   /\ (t < e -> Prediction r' = Fin 1)
                   /\ (e == t -> Prediction r' = Fin 0))
             /\ (Reconstruction_Error r = NaN \/ th = NaN ->
                 Prediction r' = Prediction r))
          df (assign_predictions th df).
Proof.
  rewrite assign_predictions_rows.
  induction df as [|r df IH]; constructor; [|exact IH].
  unfold assigned_row; cbn [Signal Ground_Truth Reconstruction_Error Prediction].
  assert (L : fle (Reconstruction_Error r) th -> predicted th r = Fin 0).
  { unfold fle, predicted. now intros ->. }
  assert (G : fgt (Reconstruction_Error r) th -> predicted th r = Fin 1).
  { unfold fgt, predicted. intros H.
    destruct (fle_bool (Reconstruction_Error r) th) eqn:E.
    - rewrite (fle_fgt_exclusive _ _ E) in H. discriminate.
    - now rewrite H. }
  split; [reflexivity|]. split; [reflexivity|]. split; [reflexivity|].
  split; [exact L|]. split; [exact G|]. split.
  - intros e t He Ht. subst th. rewrite He in L, G. repeat split; intros H.
    + apply L. now apply fle_Fin.
    + apply G. now apply fgt_Fin.
    + apply L. apply fle_Fin. rewrite H. apply Qle_refl.
  - intros [E | ->]; [now apply predicted_nan_error | apply predicted_nan_threshold].
Qed.

(** *** What the loop leaves unchanged *)

Lemma predicted_Fin_error (th e : Q) (r : Row) :
  Reconstruction_Error r = Fin e ->
  predicted (Fin th) r = if Qle_bool e th then Fin 0 else Fin 1.
Proof.
  intros E. unfold predicted. rewrite E. cbn.
  rewrite Qgt_bool_negb_le. now destruct (Qle_bool e th).
Qed.

(** At a threshold that is not NaN, the cell after the assignments does not
    depend on an earlier pair of assignments. *)
Lemma predicted_assigned_row (th t : npfloat) (r : Row) :
  th <> NaN -> predicted th (assigned_row t r) = predicted th r.
Proof.
  intros Ht.
  assert (R : Reconstruction_Error (assigned_row t r) = Reconstruction_Error r)
    by reflexivity.
  destruct (Reconstruction_Error r) as [a|s|] eqn:E.
  - rewrite !predicted_not_nan by congruence. now rewrite R, E.
  - rewrite !predicted_not_nan by congruence. now rewrite R, E.
  - rewrite (predicted_nan_error th (assigned_row t r) R).
    cbn [assigned_row Prediction].
    now rewrite (predicted_nan_error t r E), (predicted_nan_error th r E).
Qed.

Lemma count_rows_map (label pred : Q) (th : npfloat) (g : Row -> Row) (df : DataFrame) :
  (forall r, Ground_Truth (g r) = Ground_Truth r) ->
  (forall r, predicted th (g r) = predicted th r) ->
  count_rows label pred th (map g df) = count_rows label pred th df.
Proof.
  intros Hl Hp. unfold count_rows. induction df as [|r df IH]; [reflexivity|].
  cbn [map filter]. rewrite Hl, Hp.
  destruct (Qeq_bool (Ground_Truth r) label && feq_bool (predicted th r) pred);
    cbn [List.length]; now rewrite IH.
Qed.

Lemma sweep_body_rows (st : sweep_state) (t : npfloat) :
  st_df (sweep_body st t)
  = map (fun r => mkRow (Signal r) (Ground_Truth r) (predicted t r)
                    (Reconstruction_Error r)
                    (Some (row_error_types (Ground_Truth r) (predicted t r))))
        (st_df st).
Proof.
  unfold sweep_body; cbn [st_df]. rewrite assign_predictions_rows.
  unfold generate_error_types. rewrite map_map. now apply map_ext.
Qed.

Lemma count_rows_sweep_body (label pred : Q) (th t : npfloat) (st : sweep_state) :
  th <> NaN ->
  count_rows label pred th (st_df (sweep_body st t))
  = count_rows label pred th (st_df st).
Proof.
  intros Ht. rewrite sweep_body_rows. apply count_rows_map; [reflexivity|].
  intros r. exact (predicted_assigned_row th t r Ht).
Qed.

Lemma count_rows_sweep_loop (label pred : Q) (th : npfloat) (ths : list npfloat)
  (st : sweep_state) :
  th <> NaN ->
  count_rows label pred th (st_df (sweep_loop ths st))
  = count_rows label pred th (st_df st).
Proof.
  intros Ht. revert st. induction ths as [|t ths IH]; intros st; [reflexivity|].
  change (sweep_loop (t :: ths) st) with (sweep_loop ths (sweep_body st t)).
  rewrite IH. now apply count_rows_sweep_body.
Qed.

Lemma sweep_body_appends (st : sweep_state) (t : npfloat) :
  st_FN (sweep_body st t) = st_FN st ++ [FN_at t (st_df st)]
  /\ st_FP (sweep_body st t) = st_FP st ++ [FP_at t (st_df st)].
Proof.
  destruct (counts_after_assignment t (st_df st)) as [_ [_ [H3 H4]]].
  unfold sweep_body; cbn [st_FN st_FP]. now rewrite H3, H4.
Qed.


(** The counts the loop records, threshold by threshold: those of the frame
    as it was before the loop. *)
Lemma sweep_loop_closed_form (ths : list npfloat) (st : sweep_state) :
  Forall (fun th => th <> NaN) ths ->
  st_FN (sweep_loop ths st) = st_FN st ++ map (fun th => FN_at th (st_df st)) ths
  /\ st_FP (sweep_loop ths st) = st_FP st ++ map (fun th => FP_at th (st_df st)) ths.
Proof.
  intros H. revert st. induction H as [|t ths Ht Hs IH]; intros st.
  - cbn. now rewrite !app_nil_r.
  - change (sweep_loop (t :: ths) st) with (sweep_loop ths (sweep_body st t)).
    destruct (IH (sweep_body st t)) as [-> ->].
    destruct (sweep_body_appends st t) as [-> ->].
    rewrite <- !app_assoc. cbn [map app].
    assert (E : forall col pred,
      map (fun th => count_rows col pred th (st_df (sweep_body st t))) ths
      = map (fun th => count_rows col pred th (st_df st)) ths).
    { intros col pred. apply map_ext_in. intros th Hth.
      apply count_rows_sweep_body. rewrite Forall_forall in Hs. now apply Hs. }
    unfold FN_at, FP_at. rewrite !E. split; reflexivity.
Qed.

Lemma Forall_not_nan_Fin (ths : list Q) : Forall (fun th => th <> NaN) (map Fin ths).
Proof.
  apply Forall_forall. intros th H. apply in_map_iff in H.
  destruct H as [q [<- _]]. discriminate.
Qed.

(** The count at one position of the loop, for a threshold that is not NaN,
    whatever the other thresholds are. *)
Lemma sweep_loop_nth (ths : list npfloat) (st : sweep_state) (i : nat) (th : npfloat) :
  nth_error ths i = Some th ->
  th <> NaN ->
  nth_error (st_FP (sweep_loop ths st)) (List.length (st_FP st) + i)
  = Some (FP_at th (st_df st))
  /\ nth_error (st_FN (sweep_loop ths st)) (List.length (st_FN st) + i)
     = Some (FN_at th (st_df st)).
Proof.
  revert st i. induction ths as [|t ths IH]; intros st i Hi Hth.
  - destruct i; discriminate.
  - change (sweep_loop (t :: ths) st) with (sweep_loop ths (sweep_body st t)).
    destruct i as [|i].
    + injection Hi as ->. rewrite !Nat.add_0_r.
      assert (P : forall (ths : list npfloat) (st : sweep_state),
        (exists l, st_FP (sweep_loop ths st) = st_FP st ++ l)
        /\ (exists l, st_FN (sweep_loop ths st) = st_FN st ++ l)).
      { clear. induction ths as [|t ths IH]; intros st.
        - split; exists []; cbn; now rewrite app_nil_r.
        - change (sweep_loop (t :: ths) st) with (sweep_loop ths (sweep_body st t)).
          destruct (IH (sweep_body st t)) as [[l1 E1] [l2 E2]].
          destruct (sweep_body_appends st t) as [A1 A2].
          rewrite E1, E2, A1, A2, <- !app_assoc. split; eexists; reflexivity. }
      destruct (P ths (sweep_body st th)) as [[l1 E1] [l2 E2]].
      destruct (sweep_body_appends st th) as [A1 A2].
      rewrite E1, E2, A1, A2, <- !app_assoc.
      rewrite (nth_error_app2 (st_FP st)), (nth_error_app2 (st_FN st)) by lia.
      rewrite !Nat.sub_diag. split; reflexivity.
    + cbn [nth_error] in Hi.
      destruct (IH (sweep_body st t) i Hi Hth) as [F N].
      destruct (sweep_body_appends st t) as [A1 A2].
      rewrite A1, A2, !length_app in *. cbn [List.length] in *.
      replace (List.length (st_FP st) + S i)%nat
        with (List.length (st_FP st) + 1 + i)%nat by lia.
      replace (List.length (st_FN st) + S i)%nat
        with (List.length (st_FN st) + 1 + i)%nat by lia.
      unfold FP_at, FN_at in *.
      rewrite !(count_rows_sweep_body _ _ th t st Hth) in *. split; assumption.
Qed.

Lemma count_rows_is_spec (label pred th : Q) (df : DataFrame) :
  nan_rows_unpredicted df ->
  count_rows label pred (Fin th) df = count_spec label pred (Fin th) (pairs df).
Proof.
  intros U. unfold count_rows, count_spec, pairs.
  induction U as [|r df Hr _ IH]; [reflexivity|].
  cbn [map filter fst snd]. rewrite (predicted_is_spec th r Hr).
  destruct (Qeq_bool (Ground_Truth r) label
            && feq_bool (prediction_spec (Reconstruction_Error r) (Fin th)) pred);
    cbn [List.length]; now rewrite IH.
Qed.

(** C10, amended.  In the sweep the frame is mutated in place.  The two
    assignments cover every row whose error is not NaN, and only those: a row
    with a NaN error is selected by neither mask and keeps the cell it had.
    Since such a row is never written, the loop appends for each threshold
    the FN and FP counts of the frame as it was before the loop at that
    threshold, whatever thresholds were processed earlier; and when the rows
    with a NaN error hold no prediction, as in a frame whose column was never
    assigned, these are the counts of the (error, label) pairs at that
    threshold. *)
Theorem sweep_counts_depend_on_frame_and_threshold
  (st : sweep_state) (thresholds : list Q) :
  (forall th : Q,
     Forall2 (fun r r' =>
                (Reconstruction_Error r <> NaN ->
                 Prediction r'
                 = if fle_bool (Reconstruction_Error r) (Fin th) then Fin 0 else Fin 1)
                /\ (Reconstruction_Error r = NaN -> Prediction r' = Prediction r))
             (st_df st) (assign_predictions (Fin th) (st_df st)))
  /\ st_FN (sweep_loop (map Fin thresholds) st)
     = st_FN st ++ map (fun th => FN_at (Fin th) (st_df st)) thresholds
  /\ st_FP (sweep_loop (map Fin thresholds) st)
     = st_FP st ++ map (fun th => FP_at (Fin th) (st_df st)) thresholds
  /\ (nan_rows_unpredicted (st_df st) ->
      st_FN (sweep_loop (map Fin thresholds) st)
      = st_FN st ++ map (fun th => FN_spec (Fin th) (pairs (st_df st))) thresholds
      /\ st_FP (sweep_loop (map Fin thresholds) st)
         = st_FP st ++ map (fun th => FP_spec (Fin th) (pairs (st_df st))) thresholds).
Proof.
  destruct (sweep_loop_closed_form (map Fin thresholds) st (Forall_not_nan_Fin thresholds))
    as [HN HF].
  rewrite map_map in HN, HF.
  split; [|split; [exact HN|split; [exact HF|]]].
  - intros th. rewrite assign_predictions_rows. clear HN HF.
    generalize (st_df st) as df. intros df.
    induction df as [|r df IH]; cbn [map]; constructor; [|exact IH].
    cbn [assigned_row Prediction]. split.
    + intros He. apply predicted_not_nan; [exact He | discriminate].
    + apply predicted_nan_error.
  - intros U. rewrite HN, HF.
    unfold FN_at, FP_at, FN_spec, FP_spec.
    split; f_equal; apply map_ext; intros th; now apply count_rows_is_spec.
Qed.

(** C10 as stated fails: a row with a NaN error, the error of a signal
    shorter than the window, is selected by neither assignment and still
    holds NaN after both. *)
Lemma assignments_skip_nan_error :
  exists r : Row,
    nth_error (assign_predictions (Fin 5) frame_nan) 0 = Some r
    /\ Reconstruction_Error r = NaN
    /\ fle_bool (Reconstruction_Error r) (Fin 5) = false
    /\ fgt_bool (Reconstruction_Error r) (Fin 5) = false
    /\ Prediction r <> Fin 0
    /\ Prediction r <> Fin 1.
Proof.
  eexists. split; [reflexivity|]. repeat split; discriminate.
Qed.

(** The count recorded for a threshold does not depend on the thresholds
    processed before it. *)
Corollary sweep_count_independent_of_history
  (df : DataFrame) (earlier1 earlier2 : list Q) (th : Q) :
  let run earlier :=
    sweep_loop (map Fin (earlier ++ [th])) {| st_df := df; st_FN := []; st_FP := [] |} in
  last (st_FN (run earlier1)) 0%nat = last (st_FN (run earlier2)) 0%nat
  /\ last (st_FP (run earlier1)) 0%nat = last (st_FP (run earlier2)) 0%nat.
Proof.
  intros run. unfold run.
  destruct (sweep_loop_closed_form (map Fin (earlier1 ++ [th])) (mkState df [] [])
              (Forall_not_nan_Fin _)) as [N1 F1].
  destruct (sweep_loop_closed_form (map Fin (earlier2 ++ [th])) (mkState df [] [])
              (Forall_not_nan_Fin _)) as [N2 F2].
  rewrite N1, N2, F1, F2. cbn [st_df st_FN st_FP app].
  rewrite !map_app. cbn [map]. rewrite !last_last. split; reflexivity.
Qed.

Lemma sweep_closed_form (df : DataFrame) (tmin tmax tstep : Q) :
  sw_FP (sweep df tmin tmax tstep)
  = map (fun th => FP_at (Fin th) df) (sweep_thresholds tmin tmax tstep)
  /\ sw_FN (sweep df tmin tmax tstep)
     = map (fun th => FN_at (Fin th) df) (sweep_thresholds tmin tmax tstep).
Proof.
  unfold sweep; cbn [sw_FP sw_FN].
  destruct (sweep_loop_closed_form (map Fin (sweep_thresholds tmin tmax tstep))
              (mkState df [] []) (Forall_not_nan_Fin _)) as [Hn Hf].
  rewrite Hn, Hf, !map_map. split; reflexivity.
Qed.

(** *** Monotonicity *)

Lemma length_filter_le {A : Type} (f g : A -> bool) (l : list A) :
  (forall x, f x = true -> g x = true) ->
  (List.length (filter f l) <= List.length (filter g l))%nat.
Proof.
  intros H. induction l as [|x l IH]; [apply Nat.le_refl|].
  simpl. destruct (f x) eqn:F.
  - rewrite (H x F). simpl. lia.
  - destruct (g x); simpl; lia.
Qed.

Lemma fgt_bool_not_nan (x y : npfloat) : fgt_bool x y = true -> x <> NaN /\ y <> NaN.
Proof.
  destruct x, y; cbn; intros H; try discriminate; split; discriminate.
Qed.

(** [e <= th1] and [th1 < th2] give [e <= th2]. *)
Lemma fle_bool_mono (e th1 th2 : npfloat) :
  fgt_bool th2 th1 = true -> fle_bool e th1 = true -> fle_bool e th2 = true.
Proof.
  destruct e as [a|[|]|], th1 as [b|[|]|], th2 as [c|[|]|]; cbn; intros G L;
    try discriminate; try reflexivity.
  apply Qle_bool_iff. apply Qle_bool_iff in L. apply Qgt_bool_iff in G. lra.
Qed.

Lemma predicted_is_1_antitone (th1 th2 : npfloat) (r : Row) :
  fgt_bool th2 th1 = true ->
  feq_bool (predicted th2 r) 1 = true -> feq_bool (predicted th1 r) 1 = true.
Proof.
  intros G. destruct (fgt_bool_not_nan _ _ G) as [N2 N1].
  destruct (Reconstruction_Error r) as [a|s|] eqn:E.
  - rewrite !predicted_not_nan by congruence.
    destruct (fle_bool (Reconstruction_Error r) th1) eqn:L1; [|reflexivity].
    now rewrite (fle_bool_mono _ _ _ G L1).
  - rewrite !predicted_not_nan by congruence.
    destruct (fle_bool (Reconstruction_Error r) th1) eqn:L1; [|reflexivity].
    now rewrite (fle_bool_mono _ _ _ G L1).
  - now rewrite !(predicted_nan_error _ r E).
Qed.

Lemma predicted_is_0_monotone (th1 th2 : npfloat) (r : Row) :
  fgt_bool th2 th1 = true ->
  feq_bool (predicted th1 r) 0 = true -> feq_bool (predicted th2 r) 0 = true.
Proof.
  intros G. destruct (fgt_bool_not_nan _ _ G) as [N2 N1].
  destruct (Reconstruction_Error r) as [a|s|] eqn:E.
  - rewrite !predicted_not_nan by congruence.
    destruct (fle_bool (Reconstruction_Error r) th1) eqn:L1; [|discriminate].
    now rewrite (fle_bool_mono _ _ _ G L1).
  - rewrite !predicted_not_nan by congruence.
    destruct (fle_bool (Reconstruction_Error r) th1) eqn:L1; [|discriminate].
    now rewrite (fle_bool_mono _ _ _ G L1).
  - now rewrite !(predicted_nan_error _ r E).
Qed.

Lemma FP_at_antitone (th1 th2 : npfloat) (df : DataFrame) :
  fgt_bool th2 th1 = true -> (FP_at th2 df <= FP_at th1 df)%nat.
Proof.
  intros G. unfold FP_at, count_rows. apply length_filter_le. intros r.
  destruct (Qeq_bool (Ground_Truth r) 0); [|discriminate]. cbn [andb].
  now apply predicted_is_1_antitone.
Qed.

Lemma FN_at_monotone (th1 th2 : npfloat) (df : DataFrame) :
  fgt_bool th2 th1 = true -> (FN_at th1 df <= FN_at th2 df)%nat.
Proof.
  intros G. unfold FN_at, count_rows. apply length_filter_le. intros r.
  destruct (Qeq_bool (Ground_Truth r) 1); [|discriminate]. cbn [andb].
  now apply predicted_is_0_monotone.
Qed.

(** The same monotonicity at a threshold chosen by the caller. *)
Lemma evaluate_at_monotone (df : DataFrame) (th1 th2 : npfloat) :
  fgt th2 th1 ->
  (fp (evaluate_at df th2) <= fp (evaluate_at df th1))%nat
  /\ (fn (evaluate_at df th1) <= fn (evaluate_at df th2))%nat.
Proof.
  intros H. rewrite !evaluate_at_counts; cbn [fp fn].
  split; [now apply FP_at_antitone | now apply FN_at_monotone].
Qed.

(** For any list of thresholds, doubles or not: at two positions whose
    thresholds are ordered, the recorded counts are ordered. *)
Lemma sweep_loop_FP_FN_monotone
  (ths : list npfloat) (st : sweep_state) (i j : nat) (th1 th2 : npfloat) :
  nth_error ths i = Some th1 ->
  nth_error ths j = Some th2 ->
  fgt th2 th1 ->
  exists fp1 fp2 fn1 fn2 : nat,
    nth_error (st_FP (sweep_loop ths st)) (List.length (st_FP st) + i) = Some fp1
    /\ nth_error (st_FP (sweep_loop ths st)) (List.length (st_FP st) + j) = Some fp2
    /\ nth_error (st_FN (sweep_loop ths st)) (List.length (st_FN st) + i) = Some fn1
    /\ nth_error (st_FN (sweep_loop ths st)) (List.length (st_FN st) + j) = Some fn2
    /\ (fp2 <= fp1)%nat /\ (fn1 <= fn2)%nat.
Proof.
  intros H1 H2 G. destruct (fgt_bool_not_nan _ _ G) as [N2 N1].
  destruct (sweep_loop_nth ths st i th1 H1 N1) as [F1 M1].
  destruct (sweep_loop_nth ths st j th2 H2 N2) as [F2 M2].
  exists (FP_at th1 (st_df st)), (FP_at th2 (st_df st)),
         (FN_at th1 (st_df st)), (FN_at th2 (st_df st)).
  repeat split; try assumption;
    [now apply FP_at_antitone | now apply FN_at_monotone].
Qed.

(** C6.  For a fixed frame and two swept thresholds [th1 < th2], at positions
    [i] and [j] of the sweep, the sweep recorded a false-positive count at
    [th2] that is at most the one at [th1], and a false-negative count at
    [th2] that is at least the one at [th1]. *)
Theorem sweep_FP_FN_monotone
  (df : DataFrame) (tmin tmax tstep : Q) (i j : nat) (th1 th2 : Q) :
  nth_error (sw_thresholds (sweep df tmin tmax tstep)) i = Some th1 ->
  nth_error (sw_thresholds (sweep df tmin tmax tstep)) j = Some th2 ->
  th1 < th2 ->
  exists fp1 fp2 fn1 fn2 : nat,
    nth_error (sw_FP (sweep df tmin tmax tstep)) i = Some fp1
    /\ nth_error (sw_FP (sweep df tmin tmax tstep)) j = Some fp2
    /\ nth_error (sw_FN (sweep df tmin tmax tstep)) i = Some fn1
    /\ nth_error (sw_FN (sweep df tmin tmax tstep)) j = Some fn2
    /\ (fp2 <= fp1)%nat /\ (fn1 <= fn2)%nat.
Proof.
  intros H1 H2 Hlt.
  destruct (sweep_closed_form df tmin tmax tstep) as [HF HN].
  rewrite HF, HN. change (sw_thresholds (sweep df tmin tmax tstep))
    with (sweep_thresholds tmin tmax tstep) in H1, H2.
  exists (FP_at (Fin th1) df), (FP_at (Fin th2) df),
         (FN_at (Fin th1) df), (FN_at (Fin th2) df).
  rewrite !nth_error_map, H1, H2. cbn [option_map].
  assert (G : fgt_bool (Fin th2) (Fin th1) = true) by (now apply Qgt_bool_iff).
  repeat split; [now apply FP_at_antitone | now apply FN_at_monotone].
Qed.

Lemma sweep_FP_FN_monotone_witness :
  exists fp1 fp2 fn1 fn2 : nat,
    nth_error (sw_FP (sweep frame5 1 5 1)) 0 = Some fp1
    /\ nth_error (sw_FP (sweep frame5 1 5 1)) 3 = Some fp2
    /\ nth_error (sw_FN (sweep frame5 1 5 1)) 0 = Some fn1
    /\ nth_error (sw_FN (sweep frame5 1 5 1)) 3 = Some fn2
    /\ (fp2 <= fp1)%nat /\ (fn1 <= fn2)%nat.
Proof.
  apply (sweep_FP_FN_monotone frame5 1 5 1 0 3 1 (1 + 3 * 1));
    [reflexivity | reflexivity | reflexivity].
Defined.

(** The same on the sweep as the notebook runs it, on doubles: two swept
    values [t1 < t2] have ordered counts. *)
Lemma sweep_f64_FP_FN_monotone
  (df : DataFrame) (tmin tmax tstep : float64) (r : Float64SweepResult)
  (i j : nat) (t1 t2 : float64) :
  sweep_f64 df tmin tmax tstep = AOk r ->
  nth_error (swf_thresholds r) i = Some t1 ->
  nth_error (swf_thresholds r) j = Some t2 ->
  fgt (to_npfloat t2) (to_npfloat t1) ->
  exists fp1 fp2 fn1 fn2 : nat,
    nth_error (swf_FP r) i = Some fp1
    /\ nth_error (swf_FP r) j = Some fp2
    /\ nth_error (swf_FN r) i = Some fn1
    /\ nth_error (swf_FN r) j = Some fn2
    /\ (fp2 <= fp1)%nat /\ (fn1 <= fn2)%nat.
Proof.
  unfold sweep_f64.
  destruct (np_arange_f64 tmin (add64 tmax tstep) tstep) as [ths| | |];
    try discriminate.
  intros E H1 H2 G. injection E as <-. cbn [swf_thresholds swf_FP swf_FN] in *.
  apply (sweep_loop_FP_FN_monotone (map to_npfloat ths) (mkState df [] []) i j
           (to_npfloat t1) (to_npfloat t2)); [| |exact G].
  - now rewrite nth_error_map, H1.
  - now rewrite nth_error_map, H2.
Qed.

Lemma label_flags (l : Q) :
  l == 0 \/ l == 1 ->
  (Qeq_bool l 0 = true /\ Qeq_bool l 1 = false)
  \/ (Qeq_bool l 0 = false /\ Qeq_bool l 1 = true).
Proof.
  intros [H|H]; [left|right]; split.
  - now apply Qeq_bool_iff.
  - destruct (Qeq_bool l 1) eqn:E; [|reflexivity].
    apply Qeq_bool_iff in E. rewrite H in E. discriminate E.
  - destruct (Qeq_bool l 0) eqn:E; [|reflexivity].
    apply Qeq_bool_iff in E. rewrite H in E. discriminate E.
  - now apply Qeq_bool_iff.
Qed.




(** The scenarios of section 8. *)
Example scenario_five_samples :
  evaluate_at frame5 (Fin (5 # 2)) = {| tp := 3; tn := 2; fn := 0; fp := 0 |}.
Proof. reflexivity. Qed.

Example scenario_two_normal_samples :
  fp (evaluate_at frame2 (Fin 5)) = 1%nat /\ fn (evaluate_at frame2 (Fin 5)) = 0%nat.
Proof. split; reflexivity. Qed.

(** *** The swept thresholds *)




Lemma map_fst_combine {A B : Type} (l : list A) (l' : list B) :
  List.length l = List.length l' -> map fst (combine l l') = l.
Proof.
  revert l'. induction l as [|x l IH]; intros [|y l'] H; try discriminate;
    [reflexivity|].
  simpl. f_equal. apply IH. now injection H.
Qed.

(** *** The thresholds as numpy computes them *)





(** *** The metrics *)

(** C4, amended.  The four metrics are the stated quotients when their
    denominators are not zero.  Nothing guards a zero denominator: precision,
    recall and accuracy are then NaN, and the F1 score is NaN as soon as
    there is no true positive. *)
Theorem metrics_formulas_unguarded (c : ConfusionOutcome) :
  let n (k : nat) : Q := inject_Z (Z.of_nat k) in
  let P := n (tp c) / n (tp c + fp c)%nat in
  let R := n (tp c) / n (tp c + fn c)%nat in
  precision (metrics c) = (if (tp c + fp c =? 0)%nat then NaN else Fin P)
  /\ recall (metrics c) = (if (tp c + fn c =? 0)%nat then NaN else Fin R)
  /\ accuracy (metrics c)
     = (if (tp c + tn c + fp c + fn c =? 0)%nat then NaN
        else Fin (n (tp c + tn c)%nat / n (tp c + tn c + fp c + fn c)%nat))
  /\ f1_score (metrics c)
     = (if (tp c =? 0)%nat then NaN else Fin (2 * P * R / (P + R))).
Proof.
  assert (D : forall a b : nat,
    fdiv (of_nat a) (of_nat (a + b))
    = if (a + b =? 0)%nat then NaN
      else Fin (inject_Z (Z.of_nat a) / inject_Z (Z.of_nat (a + b)))).
  { intros a b. destruct (Nat.eqb_spec (a + b) 0) as [E|E].
    - assert (a = 0%nat) by lia. assert (b = 0%nat) by lia. subst. reflexivity.
    - apply fdiv_nat_pos. lia. }
  cbv zeta. unfold metrics; cbn [precision recall accuracy f1_score].
  split; [apply D|]. split; [apply D|]. split.
  - replace (tp c + tn c + fp c + fn c)%nat with ((tp c + tn c) + (fp c + fn c))%nat by lia.
    apply D.
  - rewrite !D. destruct (Nat.eqb_spec (tp c) 0) as [E|E].
    + rewrite E. cbn [Nat.add].
      destruct (fp c =? 0)%nat; [reflexivity|].
      destruct (fn c =? 0)%nat; [reflexivity|].
      unfold fmul, fadd, fdiv.
      rewrite !Qzero_bool_true; [reflexivity | | ];
        change (inject_Z (Z.of_nat 0)) with 0; unfold Qdiv; ring.
    + destruct (Nat.eqb_spec (tp c + fp c) 0) as [E1|E1]; [lia|].
      destruct (Nat.eqb_spec (tp c + fn c) 0) as [E2|E2]; [lia|].
      unfold fmul, fadd, fdiv. rewrite Qzero_bool_false; [reflexivity|].
      assert (Ht : 0 < inject_Z (Z.of_nat (tp c))) by (apply inject_nat_pos; lia).
      assert (H1 : 0 < / inject_Z (Z.of_nat (tp c + fp c)))
        by (apply Qinv_lt_0_compat, inject_nat_pos; lia).
      assert (H2 : 0 < / inject_Z (Z.of_nat (tp c + fn c)))
        by (apply Qinv_lt_0_compat, inject_nat_pos; lia).
      pose proof (Qmult_lt_0_compat _ _ Ht H1) as P1.
      pose proof (Qmult_lt_0_compat _ _ Ht H2) as P2.
      unfold Qdiv. intros Hz. lra.
Qed.

(** C4 as stated fails.  Two normal samples, both below the threshold: no
    positive prediction and no abnormal sample, so precision, recall and F1
    are NaN.  With one of them above the threshold (the second scenario of
    section 8) recall and F1 are still NaN.  On a frame without rows all
    four are NaN. *)
Lemma metrics_nan_on_zero_denominator :
  (tp (evaluate_at frame2 (Fin 10)) + fp (evaluate_at frame2 (Fin 10)) = 0)%nat
  /\ precision (metrics (evaluate_at frame2 (Fin 10))) = NaN
  /\ recall (metrics (evaluate_at frame2 (Fin 10))) = NaN
  /\ f1_score (metrics (evaluate_at frame2 (Fin 10))) = NaN
  /\ recall (metrics (evaluate_at frame2 (Fin 5))) = NaN
  /\ f1_score (metrics (evaluate_at frame2 (Fin 5))) = NaN
  /\ metrics (evaluate_at [] (Fin 5)) = mkMetrics NaN NaN NaN NaN.
Proof. repeat split. Qed.

(** The first scenario of section 8: nothing is zero, all metrics are 1. *)
Example scenario_five_samples_metrics :
  metrics (evaluate_at frame5 (Fin (5 # 2)))
  = mkMetrics (Fin (3 # 3)) (Fin (3 # 3)) (Fin (5 # 5)) (Fin (162 # 162)).
Proof. reflexivity. Qed.

End ThresholdEvaluatorFacts.

(** ** The split *)

Module DatasetBuilderFacts.

Import DatasetBuilder.

Lemma not_in_iff (f : string) (files : list string) :
  not_in f files = true <-> ~ In f files.
Proof.
  unfold not_in. rewrite negb_true_iff. split.
  - intros H Hin.
    assert (E : existsb (String.eqb f) files = true).
    { apply existsb_exists. exists f. split; [exact Hin | apply String.eqb_refl]. }
    congruence.
  - intros H. destruct (existsb (String.eqb f) files) eqn:E; [|reflexivity].
    apply existsb_exists in E. destruct E as [g [Hg Eg]].
    apply String.eqb_eq in Eg. subst g. contradiction.
Qed.

(** C7.  Whatever the library split returns, the training files kept are
    those of the split's training part that are not among the abnormal files:
    none of them is an abnormal file.  The training labels are all zero, one
    per kept file. *)
Theorem build_split_training_is_normal
  (train_test_split : list string -> list Q -> list string * list string * list Q * list Q)
  (normal_files abnormal_files : list string) :
  let s := build_split train_test_split normal_files abnormal_files in
  let X := normal_files ++ abnormal_files in
  let y := repeat 0 (List.length normal_files) ++ repeat 1 (List.length abnormal_files) in
  (forall p, In p (train_files s) -> ~ In p abnormal_files)
  /\ (forall p, In p (train_files s)
                <-> In p (fst (fst (fst (train_test_split X y))))
                    /\ ~ In p abnormal_files)
  /\ Forall (fun l => l = 0) (train_labels s)
  /\ List.length (train_labels s) = List.length (train_files s).
Proof.
  cbv zeta. unfold build_split.
  destruct (train_test_split _ _) as [[[tr te] trl] tel].
  cbn [train_files train_labels fst].
  assert (F : forall p, In p (filter (fun f => not_in f abnormal_files) tr)
                        <-> In p tr /\ ~ In p abnormal_files).
  { intros p. rewrite filter_In, not_in_iff. reflexivity. }
  split; [intros p Hp; now apply F in Hp|].
  split; [exact F|]. split.
  - apply Forall_forall. intros l Hl. now apply repeat_spec in Hl.
  - apply repeat_length.
Qed.

End DatasetBuilderFacts.

(** ** The sliding windows *)

Module SpectrogramFeaturizerFacts.

Import SpectrogramFeaturizer.

Lemma length_concat_const {A : Type} (k : nat) (l : list (list A)) :
  Forall (fun x => List.length x = k) l ->
  List.length (concat l) = (List.length l * k)%nat.
Proof.
  induction 1 as [|x l Hx _ IH]; [reflexivity|].
  cbn [concat List.length]. rewrite length_app, Hx, IH. lia.
Qed.

Lemma nth_concat_const {A : Type} (d : A) (k : nat) (l : list (list A)) (f m : nat) :
  Forall (fun x => List.length x = k) l ->
  (m < k)%nat ->
  nth (f * k + m) (concat l) d = nth m (nth f l []) d.
Proof.
  intros H Hm. revert f. induction H as [|x l Hx _ IH]; intros f.
  - cbn [concat]. destruct f, m; try reflexivity; destruct (_ + _)%nat; reflexivity.
  - cbn [concat]. destruct f as [|f].
    + cbn [Nat.mul Nat.add nth]. apply app_nth1. lia.
    + cbn [nth]. rewrite app_nth2 by lia.
      replace (S f * k + m - List.length x)%nat with (f * k + m)%nat by lia.
      apply IH.
Qed.

Lemma length_column (a : ndarray) (j : nat) :
  List.length (column a j) = List.length (data a).
Proof. unfold column. apply length_map. Qed.

Lemma nth_column (a : ndarray) (j m : nat) :
  nth m (column a j) 0 = get a m j.
Proof.
  unfold column, get.
  destruct (Nat.lt_ge_cases m (List.length (data a))) as [H|H].
  - rewrite (nth_indep _ 0 ((fun r => nth j r 0) [])) by (now rewrite length_map).
    apply (map_nth (fun r => nth j r 0)).
  - rewrite (nth_overflow (map _ _)) by (now rewrite length_map).
    rewrite (nth_overflow (data a)) by exact H. now destruct j.
Qed.

Lemma wf_ndarray_length (a : ndarray) :
  wf_ndarray a = true -> List.length (data a) = nrows a.
Proof.
  unfold wf_ndarray. intros H. apply andb_prop in H. destruct H as [H _].
  now apply Nat.eqb_eq.
Qed.

Section Windows.

Variable Signal : Type.
Variable log_mel_spectrogram : Signal -> nat -> nat -> nat -> ndarray.

Lemma windows_row_lengths (log_S : ndarray) (frames i : nat) :
  Forall (fun x => List.length x = List.length (data log_S))
         (map (fun f => column log_S (i + f)) (seq 0 frames)).
Proof.
  apply Forall_forall. intros x Hx. apply in_map_iff in Hx.
  destruct Hx as [f [<- _]]. apply length_column.
Qed.

Lemma nth_map_seq {A : Type} (g : nat -> A) (d : A) (n i : nat) :
  (i < n)%nat -> nth i (map g (seq 0 n)) d = g i.
Proof.
  intros H. apply nth_error_nth.
  rewrite nth_error_map, nth_error_seq.
  destruct (Nat.ltb_spec i n); [reflexivity | lia].
Qed.

(** C9.  When the log-Mel spectrogram of the signal has shape [(n_mels, T)],
    the features have [max(0, T - frames + 1)] rows and [n_mels * frames]
    columns; row [i] is the concatenation of the columns [i], [i+1], ...,
    [i+frames-1] of the spectrogram, so its entry [f * n_mels + m] is
    [log_S[m, i+f]]; with [T < frames] there is no row.  The function is
    total: no input makes it fail. *)
Theorem extract_signal_features_windows
  (signal : Signal) (n_mels frames n_fft hop_length T : nat) :
  wf_ndarray (log_mel_spectrogram signal n_mels n_fft hop_length) = true ->
  shape (log_mel_spectrogram signal n_mels n_fft hop_length) = (n_mels, T) ->
  let log_S := log_mel_spectrogram signal n_mels n_fft hop_length in
  let F := extract_signal_features log_mel_spectrogram signal
             n_mels frames n_fft hop_length in
  Z.of_nat (nrows F) = Z.max 0 (Z.of_nat T - Z.of_nat frames + 1)
  /\ ncols F = (n_mels * frames)%nat
  /\ wf_ndarray F = true
  /\ (forall i : nat, (i < nrows F)%nat ->
        nth_error (data F) i
        = Some (concat (map (fun f => column log_S (i + f)) (seq 0 frames))))
  /\ (forall i f m : nat,
        (i < nrows F)%nat -> (f < frames)%nat -> (m < n_mels)%nat ->
        get F i (f * n_mels + m) = get log_S m (i + f))
  /\ ((T < frames)%nat -> nrows F = 0%nat /\ data F = []).
Proof.
  intros Hwf Hshape log_S F.
  unfold shape in Hshape. injection Hshape as Hr Hc. fold log_S in Hr, Hc, Hwf.
  pose proof (wf_ndarray_length log_S Hwf) as Hlen. rewrite Hr in Hlen.
  unfold F, extract_signal_features. fold log_S. rewrite Hc.
  destruct (Z.ltb_spec (Z.of_nat T - Z.of_nat frames + 1) 1) as [Hlt|Hge];
    cbn [nrows ncols data].
  - split; [lia|]. split; [reflexivity|]. split; [reflexivity|].
    split; [intros i Hi; lia|]. split; [intros i f m Hi; lia|].
    intros _. split; reflexivity.
  - set (n := Z.to_nat (Z.of_nat T - Z.of_nat frames + 1)).
    set (row := fun i => concat (map (fun f => column log_S (i + f)) (seq 0 frames))).
    assert (Hrow : forall i, List.length (row i) = (n_mels * frames)%nat).
    { intros i. unfold row.
      rewrite (length_concat_const n_mels).
      - rewrite length_map, length_seq. apply Nat.mul_comm.
      - rewrite <- Hlen. apply windows_row_lengths. }
    split; [lia|]. split; [reflexivity|]. split.
    { unfold wf_ndarray; cbn [nrows ncols data].
      rewrite length_map, length_seq, Nat.eqb_refl. cbn [andb].
      apply forallb_forall. intros x Hx. apply in_map_iff in Hx.
      destruct Hx as [i [<- _]]. apply Nat.eqb_eq, Hrow. }
    split.
    { intros i Hi. rewrite nth_error_map, nth_error_seq.
      destruct (Nat.ltb_spec i n); [reflexivity | lia]. }
    split.
    { intros i f m Hi Hf Hm. unfold get at 1; cbn [data].
      rewrite (nth_map_seq row [] n i Hi). unfold row.
      rewrite (nth_concat_const 0 n_mels).
      - rewrite (nth_map_seq _ [] frames f Hf). apply nth_column.
      - rewrite <- Hlen. apply windows_row_lengths.
      - exact Hm. }
    intros HT. lia.
Qed.

End Windows.

Lemma extract_signal_features_windows_witness :
  let F := extract_signal_features mel_2x4 tt 2 2 1024 512 in
  Z.of_nat (nrows F) = 3%Z
  /\ ncols F = 4%nat
  /\ data F = [[1; 5; 2; 6]; [2; 6; 3; 7]; [3; 7; 4; 8]].
Proof.
  pose proof (extract_signal_features_windows unit mel_2x4 tt 2 2 1024 512 4
                eq_refl eq_refl) as H.
  cbv zeta in H. destruct H as [R [C _]].
  intros F. split; [exact R|]. split; [exact C | reflexivity].
Defined.

(** The third scenario of section 8: the rows are [a,e,b,f], [b,f,c,g],
    [c,g,d,h]. *)
Example scenario_sliding_windows :
  extract_signal_features mel_2x4 tt 2 2 1024 512
  = mkarray 3 4 [[1; 5; 2; 6]; [2; 6; 3; 7]; [3; 7; 4; 8]].
Proof. reflexivity. Qed.

(** A spectrogram shorter than the window gives no row. *)
Example scenario_short_signal :
  extract_signal_features mel_2x4 tt 2 5 1024 512 = mkarray 0 10 [].
Proof. reflexivity. Qed.

End SpectrogramFeaturizerFacts.

(** * Further properties of the notebook *)

(** ** The reconstruction error under broadcasting *)

Module BroadcastFacts.

Import AnomalyScorer NumPyEq.

Lemma broadcast_dim_sym (n m : nat) : broadcast_dim n m = broadcast_dim m n.
Proof.
  unfold broadcast_dim.
  destruct (Nat.eqb_spec n m), (Nat.eqb_spec m n), (Nat.eqb_spec n 1),
           (Nat.eqb_spec m 1); try reflexivity; try lia; congruence.
Qed.

Lemma fsum_all_nan {A : Type} (x : A) (l : list A) :
  fsum (map (fun _ => NaN) (x :: l)) = NaN.
Proof. reflexivity. Qed.

(** What [mse] returns, for every pair of arrays. *)
Lemma mse_broadcast (a b : ndarray) :
  mse a b
  = match broadcast_dim (nrows a) (nrows b), broadcast_dim (ncols a) (ncols b) with
    | Some R, Some C =>
        if ((R =? 0) || (C =? 0))%nat then Ok NaN
        else Ok (Fin (broadcast_value a b R C))
    | _, _ => Raise ValueError
    end.
Proof.
  unfold mse, np_subtract.
  destruct (broadcast_dim (nrows a) (nrows b)) as [R|]; [|reflexivity].
  destruct (broadcast_dim (ncols a) (ncols b)) as [C|]; [|reflexivity].
  unfold np_mean, np_mean_axis1, np_square; cbn [nrows ncols data].
  rewrite !map_map, !length_map, length_seq.
  destruct C as [|C].
  - rewrite Bool.orb_true_r. cbn [seq map Qsum fold_right].
    destruct R as [|R]; reflexivity.
  - rewrite (map_ext _
      (fun i => Fin (Qsum (map (fun j => sq_diff a b i j) (seq 0 (S C)))
                     / inject_Z (Z.of_nat (S C))))).
    2:{ intros i. rewrite map_map. apply fdiv_nat_pos. lia. }
    rewrite <- (map_map _ Fin), fsum_Fin.
    destruct R as [|R]; [reflexivity|].
    cbn [Nat.eqb orb]. rewrite fdiv_nat_pos by lia. reflexivity.
Qed.

Lemma sq_diff_sym (a b : ndarray) (i j : nat) : sq_diff a b i j == sq_diff b a i j.
Proof. unfold sq_diff. ring. Qed.

Lemma broadcast_value_sym (a b : ndarray) (R C : nat) :
  broadcast_value a b R C == broadcast_value b a R C.
Proof.
  unfold broadcast_value. apply Qmult_comp; [|reflexivity].
  apply Qsum_map_ext. intros i _. apply Qmult_comp; [|reflexivity].
  apply Qsum_map_ext. intros j _. apply sq_diff_sym.
Qed.

(** X1.  The reconstruction error does not depend on the order of its two
    arguments, whatever their shapes: both orders raise, or both give NaN,
    or both give the same number. *)
Theorem mse_symmetric (a b : ndarray) : result_eq (mse a b) (mse b a).
Proof.
  rewrite !mse_broadcast.
  rewrite (broadcast_dim_sym (nrows b)), (broadcast_dim_sym (ncols b)).
  destruct (broadcast_dim (nrows a) (nrows b)) as [R|]; [|reflexivity].
  destruct (broadcast_dim (ncols a) (ncols b)) as [C|]; [|reflexivity].
  destruct ((R =? 0) || (C =? 0))%nat; [exact I|].
  apply broadcast_value_sym.
Qed.


(** X2.  Two arrays of one shape without rows or without columns score NaN:
    no exception, no number. *)
Theorem mse_empty_is_nan (a b : ndarray) :
  shape a = shape b ->
  nrows a = 0%nat \/ ncols a = 0%nat ->
  mse a b = Ok NaN.
Proof.
  unfold shape. intros Hs H. injection Hs as Hr Hc.
  rewrite mse_broadcast, <- Hr, <- Hc, !broadcast_dim_same.
  destruct H as [-> | ->]; [reflexivity | now rewrite Bool.orb_true_r].
Qed.

Lemma mse_empty_is_nan_witness :
  mse (mkarray 3 0 [[]; []; []]) (mkarray 3 0 [[]; []; []]) = Ok NaN.
Proof.
  apply (mse_empty_is_nan (mkarray 3 0 [[]; []; []]) (mkarray 3 0 [[]; []; []]));
    [reflexivity | right; reflexivity].
Defined.

(** X3.  For two arrays of one shape with at least one row and one column,
    a reconstruction that equals the input at every position scores zero. *)
Theorem mse_zero_when_equal (a b : ndarray) :
  shape a = shape b ->
  (0 < nrows a)%nat ->
  (0 < ncols a)%nat ->
  (forall i j : nat, (i < nrows a)%nat -> (j < ncols a)%nat ->
                     get a i j == get b i j) ->
  exists s : Q, mse a b = Ok (Fin s) /\ s == 0.
Proof.
  intros Hs Hr Hc H. exists (mse_value a b).
  split; [now apply AnomalyScorerFacts.mse_same_shape_value|].
  unfold mse_value.
  assert (Z : forall (f : nat -> Q) l, (forall x, In x l -> f x == 0) ->
                                       Qsum (map f l) == 0).
  { intros f l Hf. induction l as [|x l IH]; [reflexivity|].
    change (f x + Qsum (map f l) == 0).
    rewrite (Hf x (or_introl eq_refl)), IH; [reflexivity|].
    intros y Hy. apply Hf. now right. }
  rewrite Z; [reflexivity|]. intros i Hi. apply in_seq in Hi.
  rewrite Z; [reflexivity|]. intros j Hj. apply in_seq in Hj.
  rewrite !bidx_in_range by lia.
  rewrite (H i j) by lia. ring.
Qed.

Lemma mse_zero_when_equal_witness :
  exists s : Q, mse A22 A22 = Ok (Fin s) /\ s == 0.
Proof.
  apply (mse_zero_when_equal A22 A22);
    [reflexivity | simpl; lia | simpl; lia | intros i j _ _; reflexivity].
Defined.

End BroadcastFacts.

(** ** The evaluation loop *)

Module EvaluationLoopFacts.

Import AnomalyScorer NumPyEq EvaluationLoop.

Section Loop.

Variable Signal : Type.
Variable load_sound_file : string -> Signal * nat.
Variable extract_signal_features : Signal -> nat -> nat -> nat -> nat -> nat -> ndarray.
Variable predict : ndarray -> ndarray.

Local Abbreviation features := (eval_features_of load_sound_file extract_signal_features).
Local Abbreviation loop := (evaluation_loop load_sound_file extract_signal_features predict).

Local Abbreviation bad_shape := (bad_shape load_sound_file extract_signal_features predict).

Lemma evaluation_loop_app (before after : list string) (acc errs : list npfloat) :
  Forall2 (fun f e => mse (features f) (predict (features f)) = Ok e) before errs ->
  loop (before ++ after) acc = loop after (acc ++ errs).
Proof.
  intros H. revert acc. induction H as [|f e fs es Hf _ IH]; intros acc.
  - cbn. now rewrite app_nil_r.
  - cbn [app]. unfold loop at 1. cbn [evaluation_loop]. unfold loop_body.
    fold features. rewrite Hf. fold loop. rewrite IH, <- app_assoc. reflexivity.
Qed.


Lemma evaluation_loop_raise_head (f : string) (after : list string) (acc : list npfloat) :
  mse (features f) (predict (features f)) = Raise ValueError ->
  loop (f :: after) acc = (acc, Raised ValueError).
Proof.
  intros Hf. unfold loop. cbn [evaluation_loop]. unfold loop_body.
  fold features. now rewrite Hf.
Qed.

Lemma mse_bad_shape (f : string) :
  bad_shape f -> mse (features f) (predict (features f)) = Raise ValueError.
Proof.
  intros Hbad. rewrite BroadcastFacts.mse_broadcast.
  destruct Hbad as [Hb|Hb]; apply broadcast_dim_None in Hb; rewrite Hb;
    [reflexivity|].
  now destruct (broadcast_dim (nrows (features f)) (nrows (predict (features f)))).
Qed.

Lemma mse_good_shape (f : string) :
  ~ bad_shape f -> exists e, mse (features f) (predict (features f)) = Ok e.
Proof.
  intros Hgood. rewrite BroadcastFacts.mse_broadcast.
  destruct (broadcast_dim (nrows (features f)) (nrows (predict (features f))))
    as [R|] eqn:ER.
  - destruct (broadcast_dim (ncols (features f)) (ncols (predict (features f))))
      as [C|] eqn:EC.
    + destruct ((R =? 0) || (C =? 0))%nat; eexists; reflexivity.
    + exfalso. apply Hgood. right. now apply broadcast_dim_None.
  - exfalso. apply Hgood. left. now apply broadcast_dim_None.
Qed.


(** X6.  At the first test file whose reconstruction cannot be broadcast
    against its features the loop raises ValueError.  The list
    [reconstruction_errors] then holds the errors of the files before it, one
    per file and in their order, and nothing for that file or for the files
    after it. *)
Theorem evaluation_loop_raises_on_bad_shape
  (before after : list string) (f : string) :
  Forall (fun g => ~ bad_shape g) before ->
  bad_shape f ->
  exists errs : list npfloat,
    reconstruction_errors_of load_sound_file extract_signal_features predict
      (before ++ f :: after)
    = (errs, Raised ValueError)
    /\ List.length errs = List.length before
    /\ Forall2 (fun g e => mse (features g) (predict (features g)) = Ok e) before errs.
Proof.
  intros Hgood Hbad.
  assert (E : exists errs,
    Forall2 (fun g e => mse (features g) (predict (features g)) = Ok e) before errs).
  { induction Hgood as [|g gs Hg _ IH]; [exists []; constructor|].
    destruct IH as [es IH]. destruct (mse_good_shape g Hg) as [e He].
    exists (e :: es). now constructor. }
  destruct E as [errs E]. exists errs.
  split; [|split; [symmetry; exact (Forall2_length E) | exact E]].
  unfold reconstruction_errors_of. fold loop.
  rewrite (evaluation_loop_app before (f :: after) [] errs E). cbn [app].
  apply evaluation_loop_raise_head, mse_bad_shape, Hbad.
Qed.

End Loop.


Lemma evaluation_loop_raises_on_bad_shape_witness :
  exists errs : list npfloat,
    reconstruction_errors_of load_name features_by_name predict_B22
      ["a.wav"; "bad.wav"; "c.wav"]%string = (errs, Raised ValueError)
    /\ List.length errs = 1%nat.
Proof.
  destruct (evaluation_loop_raises_on_bad_shape string load_name features_by_name
              predict_B22 ["a.wav"]%string ["c.wav"]%string "bad.wav"%string)
    as [errs [E [L _]]].
  - constructor; [|constructor].
    unfold bad_shape, incompatible. vm_compute. intros [[H _]|[H _]]; now apply H.
  - right. unfold incompatible. vm_compute. repeat split; discriminate.
  - exists errs. split; [exact E | exact L].
Defined.

End EvaluationLoopFacts.

(** ** The scatter data of the threshold plot *)

Module PlotsFacts.

Import Plots.

Lemma mask_partition {A : Type} (mask : list bool) (rows : list A) :
  List.length mask = List.length rows ->
  Permutation (map snd (filter fst (combine mask rows))
               ++ map snd (filter fst (combine (map negb mask) rows)))
              rows.
Proof.
  revert rows. induction mask as [|m mask IH]; intros [|r rows] H;
    try discriminate; [constructor|].
  injection H as H. specialize (IH rows H).
  cbn [map combine filter fst]. destruct m; cbn [negb map snd app].
  - now constructor.
  - apply Permutation_sym, Permutation_cons_app, Permutation_sym, IH.
Qed.

Lemma combine_fst_snd {A B : Type} (l : list (A * B)) :
  combine (map fst l) (map snd l) = l.
Proof.
  induction l as [|[a b] l IH]; [reflexivity|]. cbn. now rewrite IH.
Qed.

Lemma masks_complementary (y_true : list Q) :
  Forall (fun l => l == 0 \/ l == 1) y_true ->
  map (fun l => Qeq_bool l 1) y_true = map negb (map (fun l => Qeq_bool l 0) y_true).
Proof.
  induction 1 as [|l ls Hl _ IH]; [reflexivity|].
  cbn [map]. rewrite IH. f_equal.
  destruct (ThresholdEvaluatorFacts.label_flags l Hl) as [[-> ->]|[-> ->]];
    reflexivity.
Qed.

Lemma length_column_stack_index (errs : list Q) :
  List.length (column_stack_index errs) = List.length errs.
Proof.
  unfold column_stack_index.
  rewrite length_combine, length_map, length_seq. lia.
Qed.

(** X8.  With one label 0 or 1 per error, the scatter data put every sample
    in exactly one of the two groups: the normal and the abnormal points
    together are a rearrangement of the rows (index, error), and [x] is a
    rearrangement of the indices 0 .. n-1. *)
Theorem scatter_data_partition (y_true reconstruction_errors : list Q) :
  List.length y_true = List.length reconstruction_errors ->
  Forall (fun l => l == 0 \/ l == 1) y_true ->
  exists s : Scatter,
    scatter_data y_true reconstruction_errors = Selected s
    /\ Permutation (combine (normal_x s) (normal_y s)
                    ++ combine (abnormal_x s) (abnormal_y s))
                   (column_stack_index reconstruction_errors)
    /\ Permutation (x s)
                   (map (fun i => inject_Z (Z.of_nat i))
                        (seq 0 (List.length reconstruction_errors)))
    /\ (List.length (normal_x s) + List.length (abnormal_x s))%nat
       = List.length reconstruction_errors.
Proof.
  intros Hlen Hlab. unfold scatter_data, mask_rows.
  rewrite !length_map, length_column_stack_index, Hlen, Nat.eqb_refl.
  eexists. split; [reflexivity|]. cbn [normal_x normal_y abnormal_x abnormal_y x].
  rewrite !combine_fst_snd, (masks_complementary y_true Hlab).
  assert (P : Permutation
    (map snd (filter fst (combine (map (fun l => Qeq_bool l 0) y_true)
                                  (column_stack_index reconstruction_errors)))
     ++ map snd (filter fst (combine (map negb (map (fun l => Qeq_bool l 0) y_true))
                                     (column_stack_index reconstruction_errors))))
    (column_stack_index reconstruction_errors)).
  { apply mask_partition.
    now rewrite length_map, length_column_stack_index. }
  split; [exact P|]. split.
  - rewrite <- map_app.
    replace (map (fun i => inject_Z (Z.of_nat i))
                 (seq 0 (List.length reconstruction_errors)))
      with (map fst (column_stack_index reconstruction_errors)).
    + now apply Permutation_map.
    + unfold column_stack_index. apply ThresholdEvaluatorFacts.map_fst_combine.
      now rewrite length_map, length_seq.
  - rewrite <- length_app, <- map_app, length_map.
    rewrite (Permutation_length P). apply length_column_stack_index.
Qed.

Lemma scatter_data_partition_witness :
  exists s : Scatter,
    scatter_data [0; 1; 0] [4; 9; 5] = Selected s
    /\ Permutation (x s) [0; 1; 2].
Proof.
  destruct (scatter_data_partition [0; 1; 0] [4; 9; 5]) as [s [E [_ [P _]]]].
  - reflexivity.
  - repeat (constructor; [(left; reflexivity) || (right; reflexivity)|]).
    constructor.
  - exists s. split; [exact E | exact P].
Defined.

(** A label vector of another length than the errors is refused. *)
Lemma scatter_data_length_mismatch (y_true reconstruction_errors : list Q) :
  List.length y_true <> List.length reconstruction_errors ->
  scatter_data y_true reconstruction_errors = IndexError.
Proof.
  intros H. unfold scatter_data, mask_rows.
  rewrite !length_map, length_column_stack_index.
  apply Nat.eqb_neq in H. now rewrite H.
Qed.

End PlotsFacts.

(** ** More on the sweep, the evaluation cell and the metrics *)

Module EvaluationFacts.

Import ThresholdEvaluator ThresholdEvaluatorFacts EvaluationCell.



(** The sweep loop never touches the signals, the labels and the errors, nor
    the prediction of a row whose error is NaN. *)
Lemma sweep_loop_keeps_columns (ths : list npfloat) (st : sweep_state) :
  Forall2 (fun r r' =>
             Signal r' = Signal r
             /\ Ground_Truth r' = Ground_Truth r
             /\ Reconstruction_Error r' = Reconstruction_Error r
             /\ (Reconstruction_Error r = NaN -> Prediction r' = Prediction r))
          (st_df st) (st_df (sweep_loop ths st)).
Proof.
  revert st. induction ths as [|th ths IH]; intros st.
  - cbn. induction (st_df st); constructor; auto.
  - change (sweep_loop (th :: ths) st) with (sweep_loop ths (sweep_body st th)).
    specialize (IH (sweep_body st th)). rewrite sweep_body_rows in IH at 1.
    remember (st_df (sweep_loop ths (sweep_body st th))) as out eqn:E. clear E.
    revert out IH. induction (st_df st) as [|r df IHdf]; intros out H.
    + inversion H. constructor.
    + inversion H as [|? r' ? out' [H1 [H2 [H3 H4]]] Hrest]; subst.
      constructor; [|now apply IHdf].
      cbn [Signal Ground_Truth Reconstruction_Error Prediction] in *.
      repeat split; try assumption.
      intros N. rewrite (H4 N). now apply predicted_nan_error.
Qed.

(** X10.  After the sweep loop the frame has the rows it had before, with
    the same signals, labels and errors.  A row whose error is a number has
    the prediction of the last threshold processed, 0 with an error at most
    that threshold and 1 with an error above it: nothing of the earlier
    thresholds is left in it.  A row whose error is NaN has the prediction it
    had before the loop. *)
Theorem sweep_loop_final_frame (earlier : list npfloat) (th : Q) (st : sweep_state) :
  Forall2 (fun r r' =>
             Signal r' = Signal r
             /\ Ground_Truth r' = Ground_Truth r
             /\ Reconstruction_Error r' = Reconstruction_Error r
             /\ (fle (Reconstruction_Error r) (Fin th) -> Prediction r' = Fin 0)
             /\ (fgt (Reconstruction_Error r) (Fin th) -> Prediction r' = Fin 1)
             /\ (Reconstruction_Error r <> NaN ->
                 Prediction r' = Fin 0 \/ Prediction r' = Fin 1)
             /\ (Reconstruction_Error r = NaN -> Prediction r' = Prediction r))
          (st_df st) (st_df (sweep_loop (earlier ++ [Fin th]) st)).
Proof.
  unfold sweep_loop. rewrite fold_left_app. cbn [fold_left].
  fold (sweep_loop earlier st). rewrite sweep_body_rows.
  pose proof (sweep_loop_keeps_columns earlier st) as K.
  remember (st_df (sweep_loop earlier st)) as mid eqn:E. clear E.
  induction K as [|r m df mid' [H1 [H2 [H3 H4]]] _ IH]; [constructor|].
  cbn [map]. constructor; [|exact IH].
  cbn [Signal Ground_Truth Reconstruction_Error Prediction].
  split; [exact H1|]. split; [exact H2|]. split; [exact H3|].
  unfold predicted, fle, fgt. rewrite H3.
  split; [intros L; now rewrite L|].
  split.
  { intros G. destruct (fle_bool (Reconstruction_Error r) (Fin th)) eqn:L.
    - apply fle_fgt_exclusive in L. congruence.
    - now rewrite G. }
  split.
  - intros N. rewrite (fgt_bool_negb_fle _ (Fin th)) by (assumption || discriminate).
    destruct (fle_bool (Reconstruction_Error r) (Fin th)); [now left | now right].
  - intros N. rewrite N. cbn. now apply H4.
Qed.

(** X11.  The counts of the evaluation cell do not depend on the sweep cell
    having run before it: on the frame the sweep leaves they are the counts
    on the frame the sweep started from. *)
Theorem evaluate_at_after_sweep
  (thresholds : list npfloat) (st : sweep_state) (th : Q) :
  evaluate_at (st_df (sweep_loop thresholds st)) (Fin th)
  = evaluate_at (st_df st) (Fin th).
Proof.
  rewrite !evaluate_at_counts. unfold TP_at, TN_at, FP_at, FN_at.
  rewrite !count_rows_sweep_loop by discriminate. reflexivity.
Qed.

(** *** The upper end of the threshold range *)

Lemma count_rows_none (label pred : Q) (th : npfloat) (df : DataFrame) :
  Forall (fun r => feq_bool (predicted th r) pred = false) df ->
  count_rows label pred th df = 0%nat.
Proof.
  intros H. unfold count_rows. induction H as [|r df Hr _ IH]; [reflexivity|].
  cbn [filter]. now rewrite Hr, Bool.andb_false_r.
Qed.

(** X12.  At a threshold that no error exceeds, nothing is predicted
    abnormal: there is no true positive and no false positive, and precision
    and the F1 score are NaN. *)
Theorem evaluate_at_threshold_above_all (df : DataFrame) (th : npfloat) :
  Forall (fun r => fle (Reconstruction_Error r) th) df ->
  tp (evaluate_at df th) = 0%nat
  /\ fp (evaluate_at df th) = 0%nat
  /\ precision (metrics (evaluate_at df th)) = NaN
  /\ f1_score (metrics (evaluate_at df th)) = NaN.
Proof.
  intros H.
  assert (N : Forall (fun r => feq_bool (predicted th r) 1 = false) df).
  { eapply Forall_impl; [|exact H]. intros r L. unfold predicted.
    unfold fle in L. now rewrite L. }
  assert (T : tp (evaluate_at df th) = 0%nat)
    by (rewrite evaluate_at_counts; apply count_rows_none, N).
  assert (F : fp (evaluate_at df th) = 0%nat)
    by (rewrite evaluate_at_counts; apply count_rows_none, N).
  split; [exact T|]. split; [exact F|].
  unfold metrics; cbn [precision f1_score]. rewrite T, F. split; reflexivity.
Qed.

Lemma evaluate_at_threshold_above_all_witness :
  tp (evaluate_at frame5 (Fin 5)) = 0%nat
  /\ fp (evaluate_at frame5 (Fin 5)) = 0%nat
  /\ precision (metrics (evaluate_at frame5 (Fin 5))) = NaN
  /\ f1_score (metrics (evaluate_at frame5 (Fin 5))) = NaN.
Proof.
  apply (evaluate_at_threshold_above_all frame5 (Fin 5)).
  repeat (constructor; [reflexivity|]). constructor.
Defined.

(** *** The metrics as numbers *)

Lemma fdiv_counts (a b : nat) :
  fdiv (of_nat a) (of_nat (a + b))
  = if (a + b =? 0)%nat then NaN
    else Fin (inject_Z (Z.of_nat a) / inject_Z (Z.of_nat (a + b))).
Proof.
  destruct (Nat.eqb_spec (a + b) 0) as [E|E].
  - assert (a = 0%nat) by lia. assert (b = 0%nat) by lia. subst. reflexivity.
  - apply fdiv_nat_pos. lia.
Qed.

Lemma inject_nat_add (a b : nat) :
  inject_Z (Z.of_nat (a + b)) == inject_Z (Z.of_nat a) + inject_Z (Z.of_nat b).
Proof. rewrite Nat2Z.inj_add, inject_Z_plus. reflexivity. Qed.

Lemma ratio_in_unit (a b : nat) :
  (0 < a + b)%nat ->
  0 <= inject_Z (Z.of_nat a) / inject_Z (Z.of_nat (a + b))
  /\ inject_Z (Z.of_nat a) / inject_Z (Z.of_nat (a + b)) <= 1.
Proof.
  intros H. pose proof (inject_nat_pos _ H) as P.
  pose proof (inject_nat_nonneg a) as A. pose proof (inject_nat_nonneg b) as B.
  pose proof (inject_nat_add a b) as E. split.
  - apply Qle_shift_div_l; [exact P | lra].
  - apply Qle_shift_div_r; [exact P | lra].
Qed.

Lemma ratio_pos (a b : nat) :
  (0 < a)%nat -> 0 < inject_Z (Z.of_nat a) / inject_Z (Z.of_nat (a + b)).
Proof.
  intros H. apply Qlt_shift_div_l.
  - apply inject_nat_pos. lia.
  - pose proof (inject_nat_pos _ H). lra.
Qed.

Lemma f1_score_no_true_positive (c : ConfusionOutcome) :
  tp c = 0%nat -> f1_score (metrics c) = NaN.
Proof.
  intros E. unfold metrics; cbn [f1_score]. rewrite !fdiv_counts, E. cbn [Nat.add].
  destruct (fp c =? 0)%nat; [reflexivity|].
  destruct (fn c =? 0)%nat; [reflexivity|].
  unfold fmul, fadd, fdiv.
  rewrite !Qzero_bool_true; [reflexivity | | ];
    change (inject_Z (Z.of_nat 0)) with 0; unfold Qdiv; ring.
Qed.

Lemma f1_score_true_positive (c : ConfusionOutcome) :
  (0 < tp c)%nat ->
  f1_score (metrics c)
  = Fin (2 * (inject_Z (Z.of_nat (tp c)) / inject_Z (Z.of_nat (tp c + fp c)))
           * (inject_Z (Z.of_nat (tp c)) / inject_Z (Z.of_nat (tp c + fn c)))
         / (inject_Z (Z.of_nat (tp c)) / inject_Z (Z.of_nat (tp c + fp c))
            + inject_Z (Z.of_nat (tp c)) / inject_Z (Z.of_nat (tp c + fn c)))).
Proof.
  intros H. unfold metrics; cbn [f1_score]. rewrite !fdiv_counts.
  destruct (Nat.eqb_spec (tp c + fp c) 0) as [E1|E1]; [lia|].
  destruct (Nat.eqb_spec (tp c + fn c) 0) as [E2|E2]; [lia|].
  unfold fmul, fadd, fdiv. rewrite Qzero_bool_false; [reflexivity|].
  pose proof (ratio_pos (tp c) (fp c) H). pose proof (ratio_pos (tp c) (fn c) H).
  intros Hz. lra.
Qed.

(** X13.  Each of the four metrics is NaN or a number between 0 and 1; none
    is ever an infinity. *)
Theorem metrics_unit_or_nan (c : ConfusionOutcome) :
  unit_or_nan (precision (metrics c))
  /\ unit_or_nan (recall (metrics c))
  /\ unit_or_nan (accuracy (metrics c))
  /\ unit_or_nan (f1_score (metrics c)).
Proof.
  assert (D : forall a b : nat, unit_or_nan (fdiv (of_nat a) (of_nat (a + b)))).
  { intros a b. rewrite fdiv_counts.
    destruct (Nat.eqb_spec (a + b) 0); [exact I|].
    apply ratio_in_unit. lia. }
  split; [apply D|]. split; [apply D|]. split.
  - unfold metrics; cbn [accuracy].
    replace (tp c + tn c + fp c + fn c)%nat with ((tp c + tn c) + (fp c + fn c))%nat by lia.
    apply D.
  - destruct (Nat.eq_dec (tp c) 0) as [E|E].
    + now rewrite f1_score_no_true_positive.
    + rewrite f1_score_true_positive by lia. cbn [unit_or_nan].
      assert (H : (0 < tp c)%nat) by lia.
      pose proof (ratio_pos (tp c) (fp c) H) as P1.
      pose proof (ratio_pos (tp c) (fn c) H) as P2.
      destruct (ratio_in_unit (tp c) (fp c)) as [_ U1]; [lia|].
      destruct (ratio_in_unit (tp c) (fn c)) as [_ U2]; [lia|].
      revert P1 P2 U1 U2.
      generalize (inject_Z (Z.of_nat (tp c)) / inject_Z (Z.of_nat (tp c + fp c))).
      generalize (inject_Z (Z.of_nat (tp c)) / inject_Z (Z.of_nat (tp c + fn c))).
      intros R P P1 P2 U1 U2. split.
      * apply Qle_shift_div_l; [lra | nra].
      * apply Qle_shift_div_r; [lra | nra].
Qed.

(** *** The frame the evaluation cell leaves behind *)

Lemma evaluation_cell_counts (df : DataFrame) (th : npfloat) :
  fst (evaluation_cell df th) = evaluate_at df th.
Proof. reflexivity. Qed.

(** The row the evaluation cell leaves for a row of the frame. *)
Lemma evaluation_cell_rows (df : DataFrame) (th : npfloat) :
  snd (evaluation_cell df th)
  = map (fun r => mkRow (Signal r) (1 - Ground_Truth r)
                    (fsub (Fin 1) (predicted th r))
                    (Reconstruction_Error r)
                    (Some (row_error_types (Ground_Truth r) (predicted th r))))
        df.
Proof.
  unfold evaluation_cell, astype_float32; cbn [snd].
  rewrite assign_predictions_rows.
  unfold flip_Prediction, flip_Ground_Truth, generate_error_types.
  rewrite !map_map. apply map_ext. intros r. reflexivity.
Qed.

(** X15.  In the frame the evaluation cell leaves, which is the one written
    to the results file, both label columns are inverted with respect to the
    ones the counts were taken from: the ground truth is 1 minus the label,
    a row with an error at most [th] has prediction 1 and a row with an error
    above [th] has prediction 0. *)
Theorem evaluation_cell_saves_inverted_labels (df : DataFrame) (th : npfloat) :
  Forall2 (fun r r' =>
             Signal r' = Signal r
             /\ Reconstruction_Error r' = Reconstruction_Error r
             /\ Ground_Truth r' = 1 - Ground_Truth r
             /\ (fle (Reconstruction_Error r) th -> Prediction r' = Fin 1)
             /\ (fgt (Reconstruction_Error r) th -> Prediction r' = Fin 0))
          df (snd (evaluation_cell df th)).
Proof.
  rewrite evaluation_cell_rows.
  induction df as [|r df IH]; constructor; [|exact IH].
  cbn [Signal Ground_Truth Reconstruction_Error Prediction].
  unfold predicted, fle, fgt. repeat split.
  - intros H. now rewrite H.
  - intros H. destruct (fle_bool (Reconstruction_Error r) th) eqn:L.
    + apply fle_fgt_exclusive in L. congruence.
    + now rewrite H.
Qed.

Lemma Qeq_bool_flip_1 (l : Q) : Qeq_bool (1 - l) 1 = Qeq_bool l 0.
Proof.
  apply Bool.eq_true_iff_eq. rewrite !Qeq_bool_iff. split; intros H; lra.
Qed.

Lemma Qeq_bool_flip_0 (l : Q) : Qeq_bool (1 - l) 0 = Qeq_bool l 1.
Proof.
  apply Bool.eq_true_iff_eq. rewrite !Qeq_bool_iff. split; intros H; lra.
Qed.

Lemma count_rows_flipped (label label' pred : Q) (th : npfloat) (g : Row -> Row)
  (df : DataFrame) :
  (forall l, Qeq_bool (1 - l) label = Qeq_bool l label') ->
  Forall (fun r => Ground_Truth (g r) = 1 - Ground_Truth r
                   /\ predicted th (g r) = predicted th r) df ->
  count_rows label pred th (map g df) = count_rows label' pred th df.
Proof.
  intros Hl H. unfold count_rows.
  induction H as [|r df [Hg Hp] _ IH]; [reflexivity|].
  cbn [map filter]. rewrite Hg, Hp, Hl.
  destruct (Qeq_bool (Ground_Truth r) label' && feq_bool (predicted th r) pred);
    cbn [List.length]; now rewrite IH.
Qed.

(** What a second run of the two assignments finds in a row the evaluation
    cell left. *)
Lemma predicted_after_evaluation_cell (df : DataFrame) (th1 : npfloat) (th2 : Q) :
  nan_rows_unpredicted df ->
  Forall (fun r =>
            let r' := mkRow (Signal r) (1 - Ground_Truth r)
                        (fsub (Fin 1) (predicted th1 r))
                        (Reconstruction_Error r)
                        (Some (row_error_types (Ground_Truth r) (predicted th1 r))) in
            Ground_Truth r' = 1 - Ground_Truth r
            /\ predicted (Fin th2) r' = predicted (Fin th2) r) df.
Proof.
  intros H. eapply Forall_impl; [|exact H]. intros r N. cbv zeta.
  split; [reflexivity|].
  destruct (Reconstruction_Error r) as [e|s|] eqn:E.
  - unfold predicted; cbn [Reconstruction_Error Prediction]; rewrite E.
    cbn [fle_bool fgt_bool]. rewrite Qgt_bool_negb_le.
    now destruct (Qle_bool e th2).
  - unfold predicted; cbn [Reconstruction_Error Prediction]; rewrite E.
    cbn [fle_bool fgt_bool]. now destruct s.
  - unfold predicted; cbn [Reconstruction_Error Prediction]; rewrite E.
    cbn [fle_bool fgt_bool]. cbv beta in N. rewrite (N E). reflexivity.
Qed.

(** X16.  The evaluation cell is not idempotent: it inverts the ground-truth
    column of the frame in place, so running it a second time on the frame
    it left counts with the classes exchanged: the true positives of the
    second run are the false positives of a first run at that threshold, and
    the true negatives its false negatives.  The frame is one in which a row
    with a NaN error has no prediction yet, as the sweep cell builds it. *)
Theorem evaluation_cell_rerun_swaps_counts
  (df : DataFrame) (th1 : npfloat) (th2 : Q) :
  nan_rows_unpredicted df ->
  fst (evaluation_cell (snd (evaluation_cell df th1)) (Fin th2))
  = swap_classes (fst (evaluation_cell df (Fin th2))).
Proof.
  intros N.
  rewrite !evaluation_cell_counts, !evaluate_at_counts, evaluation_cell_rows.
  pose proof (predicted_after_evaluation_cell df th1 th2 N) as P. cbv zeta in P.
  unfold swap_classes, TP_at, TN_at, FP_at, FN_at; cbn [tp tn fp fn].
  rewrite !(count_rows_flipped 1 0 _ _ _ df Qeq_bool_flip_1 P).
  rewrite !(count_rows_flipped 0 1 _ _ _ df Qeq_bool_flip_0 P).
  reflexivity.
Qed.

Lemma evaluation_cell_rerun_swaps_counts_witness :
  fst (evaluation_cell (snd (evaluation_cell frame_nan (Fin 5))) (Fin 8))
  = swap_classes (fst (evaluation_cell frame_nan (Fin 8))).
Proof.
  apply (evaluation_cell_rerun_swaps_counts frame_nan (Fin 5) 8).
  repeat (constructor; [intros H; (reflexivity || discriminate H)|]). constructor.
Defined.

End EvaluationFacts.


(** ** More on the split *)

Module SplitFacts.

Import DatasetBuilder DatasetBuilderFacts.

(** X17.  When the library split only returns files it was given, every
    training file kept is one of the normal files; and when no file is listed
    both as normal and as abnormal, the training files kept are exactly the
    normal files of the split's training part. *)
Theorem build_split_keeps_normal_files
  (train_test_split : list string -> list Q -> list string * list string * list Q * list Q)
  (normal_files abnormal_files : list string) :
  (forall p,
     In p (fst (fst (fst (train_test_split
                            (normal_files ++ abnormal_files)
                            (repeat 0 (List.length normal_files)
                             ++ repeat 1 (List.length abnormal_files))))))
     -> In p (normal_files ++ abnormal_files)) ->
  (forall p, In p (train_files (build_split train_test_split normal_files abnormal_files))
             -> In p normal_files)
  /\ ((forall p, In p normal_files -> ~ In p abnormal_files) ->
      forall p,
        In p (train_files (build_split train_test_split normal_files abnormal_files))
        <-> In p (fst (fst (fst (train_test_split
                                   (normal_files ++ abnormal_files)
                                   (repeat 0 (List.length normal_files)
                                    ++ repeat 1 (List.length abnormal_files))))))
            /\ In p normal_files).
Proof.
  unfold build_split.
  destruct (train_test_split _ _) as [[[tr te] trl] tel].
  cbn [train_files fst]. intros Hsub.
  assert (F : forall p, In p (filter (fun f => not_in f abnormal_files) tr)
                        <-> In p tr /\ ~ In p abnormal_files).
  { intros p. rewrite filter_In, not_in_iff. reflexivity. }
  split.
  - intros p Hp. apply F in Hp. destruct Hp as [Ht Hn].
    apply Hsub, in_app_or in Ht. destruct Ht; [assumption | contradiction].
  - intros Hdis p. rewrite F. split; intros [Ht Hn]; split; try assumption.
    + apply Hsub, in_app_or in Ht. destruct Ht; [assumption | contradiction].
    + now apply Hdis.
Qed.

Lemma build_split_keeps_normal_files_witness :
  In "n2"%string
     (train_files (build_split split_head_for_test
                     ["n1"; "n2"; "n3"]%string ["a1"; "a2"]%string))
  /\ In "n2"%string ["n1"; "n2"; "n3"]%string.
Proof.
  assert (H : In "n2"%string
     (train_files (build_split split_head_for_test
                     ["n1"; "n2"; "n3"]%string ["a1"; "a2"]%string)))
    by (left; reflexivity).
  split; [exact H|].
  refine (proj1 (build_split_keeps_normal_files split_head_for_test
                   ["n1"; "n2"; "n3"]%string ["a1"; "a2"]%string _) _ H).
  intros p Hp. simpl in Hp. simpl. tauto.
Defined.

End SplitFacts.
